(** * Backtester: the position and equity simulation engine

    A shallow embedding of [backtester.py] (class [Backtester]) and of the
    reference policy of [strategy.py] (class [Strategy]).

    Python's [float] is IEEE binary64.  The engine is written once over an
    interface [Arith] of the arithmetic the source uses, and read at three
    instances: the kernel's binary64 floats as Python floats
    ([float_Arith]), the same floats as numpy.float64, which is what the
    prices are once [run_backtest] reads them from the frame
    ([numpy_Arith]: a division by zero returns an infinity or a NaN where
    a Python float raises), and the rationals ([Q_Arith]), which is the
    engine in exact arithmetic. A property proved of the rationals alone
    is a property of exact arithmetic, and says so; binary64 rounds,
    overflows and has NaN, and the scenarios that separate the two are
    run here as Python runs them.

    Console output ([print]) is not part of the model: no caller can read
    it back.  Exceptions are: a division by zero between Python floats
    raises [ZeroDivisionError], and [display_results] indexes the last
    candle. *)

From Stdlib Require Import List String ZArith QArith Qabs Bool Lia Lqa.
From Stdlib Require Import Floats.PrimFloat Floats.SpecFloat Floats.FloatOps
  Floats.FloatAxioms.
Import ListNotations.

Set Implicit Arguments.

(** ** The arithmetic of the source *)

Class Arith (num : Type) : Type := {
  zero : num;                       (* 0.0 *)
  one  : num;                       (* 1 and 1.0 *)
  MIN_ORDER_USDT : num;             (* 5.0 *)
  add  : num -> num -> num;
  sub  : num -> num -> num;
  mul  : num -> num -> num;
  quot : num -> num -> num;         (* x / y for y that is not zero *)
  neg  : num -> num;                (* -x *)
  abs  : num -> num;                (* abs(x) *)
  ltb  : num -> num -> bool;        (* x < y *)
  leb  : num -> num -> bool;        (* x <= y *)
  eqb  : num -> num -> bool;        (* x == y *)
  zero_division_raises : bool       (* whether x / 0 raises: it does on a
                                       Python float, not on a numpy.float64 *)
}.

Declare Scope num_scope.
Delimit Scope num_scope with num.
Infix "+" := add : num_scope.
Infix "-" := sub : num_scope.
Infix "*" := mul : num_scope.
Notation "- x" := (neg x) : num_scope.
Infix "<?" := ltb : num_scope.
Infix "<=?" := leb : num_scope.
Infix "=?" := eqb : num_scope.
(* Python writes the same tests from the other side. *)
Notation "x >? y" := (ltb y x) (at level 70, only parsing) : num_scope.
Notation "x >=? y" := (leb y x) (at level 70, only parsing) : num_scope.
Notation "x !=? y" := (negb (eqb x y)) (at level 70, only parsing) : num_scope.

(** ** Data model *)

Definition timestamp := Z.

(** A row of [self.data] together with its index. *)
Record candle (num : Type) : Type := {
  c_timestamp : timestamp;
  c_open : num;
  c_high : num;
  c_low : num;
  c_close : num;
  c_volume : num
}.

(** The cash entry of a trade record is stored under the key ['cost_usdt']
    by BUY_LONG and CLOSE_SHORT and under ['revenue_usdt'] by CLOSE_LONG
    and SELL_SHORT. *)
Inductive cash_flow (num : Type) : Type :=
| cost_usdt (x : num)
| revenue_usdt (x : num).

(** The dictionary [trade_info]. *)
Record trade_info (num : Type) : Type := {
  t_timestamp : timestamp;
  t_type : string;
  t_price : num;
  amount_coins : num;
  cash : cash_flow num;
  balance_after_trade : num;
  current_position : num;
  pnl_usdt : num
}.

(** An entry of [equity_log]. *)
Record equity_sample (num : Type) : Type := {
  e_timestamp : timestamp;
  equity : num
}.

(** The attributes of a [Backtester] object. *)
Record Backtester (num : Type) : Type := {
  data : list (candle num);
  initial_balance : num;
  current_balance : num;
  fee : num;
  position : num;
  entry_price : num;
  trade_log : list (trade_info num);
  equity_log : list (equity_sample num)
}.

(** ** Effects: in-place mutation and exceptions *)

Inductive exn : Type :=
| ZeroDivisionError
| IndexError.

Inductive outcome (A : Type) : Type :=
| Returned (a : A)
| Raised (e : exn).
Arguments Raised {A} e.

(** A method of the engine: it returns or raises, and the object keeps
    whatever was assigned before either. *)
Definition M (num A : Type) : Type :=
  Backtester num -> outcome A * Backtester num.

Definition ret {num A} (a : A) : M num A := fun self => (Returned a, self).

Definition raise {num A} (e : exn) : M num A := fun self => (Raised e, self).

Definition bind {num A B} (m : M num A) (k : A -> M num B) : M num B :=
  fun self =>
    match m self with
    | (Returned a, self') => k a self'
    | (Raised e, self') => (Raised e, self')
    end.

Definition get {num} : M num (Backtester num) := fun self => (Returned self, self).

Definition put {num} (s : Backtester num) : M num unit := fun _ => (Returned tt, s).

Declare Scope monad_scope.
Delimit Scope monad_scope with monad.
Notation "x <- m ;; k" := (bind m (fun x => k))
  (at level 61, m at next level, right associativity) : monad_scope.
Notation "m ;;; k" := (bind m (fun _ => k))
  (at level 61, right associativity) : monad_scope.

Section Engine.

Context {num : Type} {AR : Arith num}.
Local Open Scope string_scope.
Local Open Scope monad_scope.
Local Open Scope num_scope.

Local Abbreviation state := (Backtester num).

(** [Backtester.__init__], on a frame that passed its type checks. *)
Definition init (data : list (candle num)) (initial_balance fee : num) : state :=
  {| data := data;
     initial_balance := initial_balance;
     current_balance := initial_balance;
     fee := fee;
     position := zero;
     entry_price := zero;
     trade_log := [];
     equity_log := [] |}.

(** [x / y]. Between Python floats a zero divisor raises; as soon as an
    operand is a numpy.float64, as the prices [run_backtest] reads from
    the frame are, the division returns (an infinity or a NaN). *)
Definition py_div (x y : num) : M num num :=
  if zero_division_raises && (y =? zero)
  then raise ZeroDivisionError
  else ret (quot x y).

(** The three assignments every executed order makes: to
    [self.current_balance], [self.position] and [self.entry_price]. *)
Definition assign (self : state) (balance pos entry : num) : state :=
  {| data := data self;
     initial_balance := initial_balance self;
     current_balance := balance;
     fee := fee self;
     position := pos;
     entry_price := entry;
     trade_log := trade_log self;
     equity_log := equity_log self |}.

(** [self.trade_log.append(trade_info)]. *)
Definition trade_log_append (t : trade_info num) : M num unit :=
  fun self =>
    (Returned tt,
     {| data := data self;
        initial_balance := initial_balance self;
        current_balance := current_balance self;
        fee := fee self;
        position := position self;
        entry_price := entry_price self;
        trade_log := trade_log self ++ [t];
        equity_log := equity_log self |}).

(** [self.equity_log.append(...)]. *)
Definition equity_log_append (e : equity_sample num) : M num unit :=
  fun self =>
    (Returned tt,
     {| data := data self;
        initial_balance := initial_balance self;
        current_balance := current_balance self;
        fee := fee self;
        position := position self;
        entry_price := entry_price self;
        trade_log := trade_log self;
        equity_log := equity_log self ++ [e] |}).

(** [Backtester._execute_order]. *)
Definition _execute_order (order_type : string) (price : num)
    (ts : timestamp) (amount_usdt_percent : num) : M num bool :=
  self <- get ;;
  if String.eqb order_type "BUY_LONG" then
    if position self >? zero then ret false
    else if position self <? zero then ret false
    else if current_balance self <=? zero then ret false
    else if negb ((zero <? amount_usdt_percent) && (amount_usdt_percent <=? one))
    then ret false
    else
      let usdt_to_spend := current_balance self * amount_usdt_percent in
      if usdt_to_spend <? MIN_ORDER_USDT then ret false
      else
        q <- py_div usdt_to_spend price ;;
        let amount_coins := q * (one - fee self) in
        let cost := usdt_to_spend in
        let balance' := current_balance self - cost in
        put (assign self balance' amount_coins price) ;;;
        trade_log_append
          {| t_timestamp := ts; t_type := "BUY_LONG"; t_price := price;
             amount_coins := amount_coins; cash := cost_usdt cost;
             balance_after_trade := balance'; current_position := amount_coins;
             pnl_usdt := zero |} ;;;
        ret true
  else if String.eqb order_type "CLOSE_LONG" then
    if position self <=? zero then ret false
    else
      let gross_revenue_usdt := position self * price in
      let net_revenue_usdt := gross_revenue_usdt * (one - fee self) in
      let initial_position_cost_usdt := position self * entry_price self in
      let profit_loss := net_revenue_usdt - initial_position_cost_usdt in
      let balance' := current_balance self + net_revenue_usdt in
      put (assign self balance' zero zero) ;;;
      trade_log_append
        {| t_timestamp := ts; t_type := "CLOSE_LONG"; t_price := price;
           amount_coins := zero; cash := revenue_usdt net_revenue_usdt;
           balance_after_trade := balance'; current_position := zero;
           pnl_usdt := profit_loss |} ;;;
      ret true
  else if String.eqb order_type "SELL_SHORT" then
    if position self <? zero then ret false
    else if position self >? zero then ret false
    else if negb ((zero <? amount_usdt_percent) && (amount_usdt_percent <=? one))
    then ret false
    else
      let usdt_to_short_equivalent := current_balance self * amount_usdt_percent in
      if usdt_to_short_equivalent <? MIN_ORDER_USDT then ret false
      else
        q <- py_div usdt_to_short_equivalent price ;;
        let amount_coins_short := q * (one - fee self) in
        let received := usdt_to_short_equivalent * (one - fee self) in
        let balance' := current_balance self + received in
        put (assign self balance' (- amount_coins_short) price) ;;;
        trade_log_append
          {| t_timestamp := ts; t_type := "SELL_SHORT"; t_price := price;
             amount_coins := - amount_coins_short; cash := revenue_usdt received;
             balance_after_trade := balance';
             current_position := - amount_coins_short;
             pnl_usdt := zero |} ;;;
        ret true
  else if String.eqb order_type "CLOSE_SHORT" then
    if position self >=? zero then ret false
    else
      let amount_coins_to_buy_back := abs (position self) in
      let cost_to_buy_back := (amount_coins_to_buy_back * price) * (one + fee self) in
      if current_balance self <? cost_to_buy_back then ret false
      else
        let revenue_from_short_open :=
          abs (position self) * entry_price self * (one - fee self) in
        let cost_for_short_close := abs (position self) * price * (one + fee self) in
        let profit_loss := revenue_from_short_open - cost_for_short_close in
        let balance' := current_balance self - cost_to_buy_back in
        put (assign self balance' zero zero) ;;;
        trade_log_append
          {| t_timestamp := ts; t_type := "CLOSE_SHORT"; t_price := price;
             amount_coins := zero; cash := cost_usdt cost_to_buy_back;
             balance_after_trade := balance'; current_position := zero;
             pnl_usdt := profit_loss |} ;;;
        ret true
  else ret false.

(** The public order operations; the closes leave [amount_usdt_percent]
    at its default, 1.0. *)
Definition open_long (ts : timestamp) (price amount_usdt_percent : num) : M num bool :=
  _execute_order "BUY_LONG" price ts amount_usdt_percent.

Definition close_long (ts : timestamp) (price : num) : M num bool :=
  _execute_order "CLOSE_LONG" price ts one.

Definition open_short (ts : timestamp) (price amount_usdt_percent : num) : M num bool :=
  _execute_order "SELL_SHORT" price ts amount_usdt_percent.

Definition close_short (ts : timestamp) (price : num) : M num bool :=
  _execute_order "CLOSE_SHORT" price ts one.

(** The accessors. *)
Definition get_current_position (self : state) : num := position self.

Definition get_current_balance (self : state) : num := current_balance self.

Definition get_entry_price (self : state) : num := entry_price self.

Definition get_position_type (self : state) : string :=
  if position self >? zero then "LONG"
  else if position self <? zero then "SHORT"
  else "NONE".

(** ** Sequences of order operations *)

Inductive order : Type :=
| OPEN_LONG (ts : timestamp) (price amount_usdt_percent : num)
| CLOSE_LONG (ts : timestamp) (price : num)
| OPEN_SHORT (ts : timestamp) (price amount_usdt_percent : num)
| CLOSE_SHORT (ts : timestamp) (price : num).

Definition order_price (o : order) : num :=
  match o with
  | OPEN_LONG _ price _ | CLOSE_LONG _ price
  | OPEN_SHORT _ price _ | CLOSE_SHORT _ price => price
  end.

Definition apply_order (o : order) : M num bool :=
  match o with
  | OPEN_LONG ts price pct => open_long ts price pct
  | CLOSE_LONG ts price => close_long ts price
  | OPEN_SHORT ts price pct => open_short ts price pct
  | CLOSE_SHORT ts price => close_short ts price
  end.

(** The operations of [os] one after the other, whatever each returns. *)
Fixpoint run_orders (os : list order) : M num unit :=
  match os with
  | [] => ret tt
  | o :: os' => apply_order o ;;; run_orders os'
  end.

(** An open followed at once by the close of the same side, at the same
    price. *)
Definition long_round_trip (ts : timestamp) (price pct : num) : M num bool :=
  open_long ts price pct ;;; close_long ts price.

Definition short_round_trip (ts : timestamp) (price pct : num) : M num bool :=
  open_short ts price pct ;;; close_short ts price.

(** The realized pnl column of the trade log. *)
Definition pnl_log (self : state) : list num :=
  map (fun t => pnl_usdt t) (trade_log self).

(** ** The strategy capability

    [on_candle] runs with a handle on the engine: it may read the four
    accessors and issue the four order operations, each of which hands it
    back a boolean. A callback is the tree of these calls. *)

Inductive prog (R : Type) : Type :=
| Done (r : R)
| OpenLong (ts : timestamp) (price amount_usdt_percent : num) (k : bool -> prog R)
| CloseLong (ts : timestamp) (price : num) (k : bool -> prog R)
| OpenShort (ts : timestamp) (price amount_usdt_percent : num) (k : bool -> prog R)
| CloseShort (ts : timestamp) (price : num) (k : bool -> prog R)
| GetCurrentPosition (k : num -> prog R)
| GetCurrentBalance (k : num -> prog R)
| GetEntryPrice (k : num -> prog R)
| GetPositionType (k : string -> prog R).

(** Running a callback against the engine. *)
Fixpoint run_prog {R : Type} (p : prog R) : M num R :=
  match p with
  | Done r => ret r
  | OpenLong ts price pct k => b <- open_long ts price pct ;; run_prog (k b)
  | CloseLong ts price k => b <- close_long ts price ;; run_prog (k b)
  | OpenShort ts price pct k => b <- open_short ts price pct ;; run_prog (k b)
  | CloseShort ts price k => b <- close_short ts price ;; run_prog (k b)
  | GetCurrentPosition k => self <- get ;; run_prog (k (get_current_position self))
  | GetCurrentBalance k => self <- get ;; run_prog (k (get_current_balance self))
  | GetEntryPrice k => self <- get ;; run_prog (k (get_entry_price self))
  | GetPositionType k => self <- get ;; run_prog (k (get_position_type self))
  end.

(** A strategy object: its own attributes [S], and [on_candle], which
    may change them. *)
Definition strategy (S : Type) : Type := S -> candle num -> prog S.

(** [Strategy.on_candle] of strategy.py. [trade_entry_percent] is fixed
    by [Strategy.__init__]; the object has no attribute that [on_candle]
    assigns. *)
Definition Strategy_on_candle (trade_entry_percent : num) : strategy unit :=
  fun _ row =>
    let ts := c_timestamp row in
    let open_price := c_open row in
    let close_price := c_close row in
    GetPositionType (fun position_type =>
      if String.eqb position_type "NONE" then
        if close_price >? open_price then
          OpenLong ts close_price trade_entry_percent (fun _ => Done tt)
        else if close_price <? open_price then
          OpenShort ts close_price trade_entry_percent (fun _ => Done tt)
        else Done tt
      else if String.eqb position_type "LONG" then
        if close_price <? open_price then
          CloseLong ts close_price (fun _ => Done tt)
        else Done tt
      else if String.eqb position_type "SHORT" then
        if close_price >? open_price then
          CloseShort ts close_price (fun _ => Done tt)
        else Done tt
      else Done tt).

(** ** The simulation loop *)

(** The equity the loop records after a callback. *)
Definition current_equity (self : state) (close_price : num) : num :=
  if position self !=? zero
  then current_balance self + position self * close_price
  else current_balance self.

(** The body of the [for] loop of [run_backtest] over the rows that are
    left. *)
Fixpoint run_candles {S : Type} (strat : strategy S) (st : S)
    (rows : list (candle num)) : M num S :=
  match rows with
  | [] => ret st
  | row :: rows' =>
      st' <- run_prog (strat st row) ;;
      self <- get ;;
      equity_log_append
        {| e_timestamp := c_timestamp row;
           equity := current_equity self (c_close row) |} ;;;
      run_candles strat st' rows'
  end.

(** The engine as each callback of the loop left it, callback by
    callback, up to the first one that raises. *)
Fixpoint callback_states {S : Type} (strat : strategy S) (st : S)
    (rows : list (candle num)) (self : state) : list state :=
  match rows with
  | [] => []
  | row :: rows' =>
      match run_prog (strat st row) self with
      | (Returned st', self') =>
          self' ::
          callback_states strat st' rows'
            (snd (equity_log_append
                    {| e_timestamp := c_timestamp row;
                       equity := current_equity self' (c_close row) |} self'))
      | (Raised _, _) => []
      end
  end.

(** Two callbacks that take the same decisions: the same calls with the
    same arguments, whatever they leave in the strategy's attributes. *)
Inductive same_decisions {R1 R2 : Type} : prog R1 -> prog R2 -> Prop :=
| sd_Done r1 r2 : same_decisions (Done r1) (Done r2)
| sd_OpenLong ts price pct k1 k2 :
    (forall b, same_decisions (k1 b) (k2 b)) ->
    same_decisions (OpenLong ts price pct k1) (OpenLong ts price pct k2)
| sd_CloseLong ts price k1 k2 :
    (forall b, same_decisions (k1 b) (k2 b)) ->
    same_decisions (CloseLong ts price k1) (CloseLong ts price k2)
| sd_OpenShort ts price pct k1 k2 :
    (forall b, same_decisions (k1 b) (k2 b)) ->
    same_decisions (OpenShort ts price pct k1) (OpenShort ts price pct k2)
| sd_CloseShort ts price k1 k2 :
    (forall b, same_decisions (k1 b) (k2 b)) ->
    same_decisions (CloseShort ts price k1) (CloseShort ts price k2)
| sd_GetCurrentPosition k1 k2 :
    (forall x, same_decisions (k1 x) (k2 x)) ->
    same_decisions (GetCurrentPosition k1) (GetCurrentPosition k2)
| sd_GetCurrentBalance k1 k2 :
    (forall x, same_decisions (k1 x) (k2 x)) ->
    same_decisions (GetCurrentBalance k1) (GetCurrentBalance k2)
| sd_GetEntryPrice k1 k2 :
    (forall x, same_decisions (k1 x) (k2 x)) ->
    same_decisions (GetEntryPrice k1) (GetEntryPrice k2)
| sd_GetPositionType k1 k2 :
    (forall x, same_decisions (k1 x) (k2 x)) ->
    same_decisions (GetPositionType k1) (GetPositionType k2).

(** What a run leaves behind without the strategy's own attributes:
    returned or raised. *)
Definition forget {R : Type} (r : outcome R * state) : outcome unit * state :=
  match r with
  | (Returned _, self) => (Returned tt, self)
  | (Raised e, self) => (Raised e, self)
  end.

(** [display_results] prints; what can go wrong is its
    [self.data['close'].iloc[-1]]. *)
Definition display_results : M num unit :=
  self <- get ;;
  match rev (data self) with
  | [] => raise IndexError
  | _ :: _ => ret tt
  end.

(** [Backtester.run_backtest]. *)
Definition run_backtest {S : Type} (strat : strategy S) (st : S) : M num S :=
  self <- get ;;
  st' <- run_candles strat st (data self) ;;
  display_results ;;;
  ret st'.

(** The sample the loop takes for a row on the engine a callback left. *)
Definition sample_after (rs : candle num * state) : equity_sample num :=
  {| e_timestamp := c_timestamp (fst rs);
     equity := current_equity (snd rs) (c_close (fst rs)) |}.

(** What no order touches: the candles, the configuration and the equity
    log. *)
Definition same_frame (self self' : state) : Prop :=
  data self' = data self /\
  initial_balance self' = initial_balance self /\
  fee self' = fee self /\
  equity_log self' = equity_log self.

End Engine.

Arguments prog num R : clear implicits.
Arguments strategy num S : clear implicits.
Arguments order num : clear implicits.

(** ** What a run reports

    The figures [display_results] and the metrics table of [main] compute
    from the engine once the run is over. *)

Section Reports.

Context {num : Type} {AR : Arith num}.
Local Open Scope string_scope.
Local Open Scope list_scope.
Local Open Scope num_scope.

(** [t['type'] in [...]]. *)
Definition type_in (tys : list string) (t : trade_info num) : bool :=
  existsb (String.eqb (t_type t)) tys.

(** [final_equity] of [display_results] and of [main], for the close of
    the last candle. *)
Definition final_equity (self : Backtester num) (last_price : num) : num :=
  if position self !=? zero
  then current_balance self + position self * last_price
  else current_balance self.

(** [total_pnl]. *)
Definition total_pnl (self : Backtester num) (last_price : num) : num :=
  final_equity self last_price - initial_balance self.

(** [sum(...)], which adds from the left, starting at 0. *)
Definition py_sum (xs : list num) : num := fold_left add xs zero.

(** [closed_pnl]. *)
Definition closed_pnl (self : Backtester num) : num :=
  py_sum (map (fun t => pnl_usdt t)
            (filter (type_in ["CLOSE_LONG"; "CLOSE_SHORT"]) (trade_log self))).

(** [total_trades] of [main]: the opens. *)
Definition total_trades (self : Backtester num) : nat :=
  List.length (filter (type_in ["BUY_LONG"; "SELL_SHORT"]) (trade_log self)).

(** [winning_trades] and [losing_trades] of [main]. *)
Definition winning_trades (self : Backtester num) : nat :=
  List.length
    (filter (fun t => type_in ["CLOSE_LONG"; "CLOSE_SHORT"] t && (pnl_usdt t >? zero))
       (trade_log self)).

Definition losing_trades (self : Backtester num) : nat :=
  List.length
    (filter (fun t => type_in ["CLOSE_LONG"; "CLOSE_SHORT"] t && (pnl_usdt t <? zero))
       (trade_log self)).

(** The order is one of the two opens. *)
Definition is_open (o : order num) : bool :=
  match o with
  | OPEN_LONG _ _ _ | OPEN_SHORT _ _ _ => true
  | CLOSE_LONG _ _ | CLOSE_SHORT _ _ => false
  end.

(** A trade record as the engine writes it: an open books no pnl and
    carries the coins of the position it creates; a close carries no
    coins and leaves no position. *)
Definition well_formed_record (t : trade_info num) : Prop :=
  (type_in ["BUY_LONG"; "SELL_SHORT"] t = true /\
   pnl_usdt t = zero /\ amount_coins t = current_position t) \/
  (type_in ["CLOSE_LONG"; "CLOSE_SHORT"] t = true /\
   amount_coins t = zero /\ current_position t = zero).

(** The last record of the log, if any, shows the balance and position
    the engine has now. *)
Definition log_up_to_date (self : Backtester num) : Prop :=
  match rev (trade_log self) with
  | [] => True
  | t :: _ =>
      balance_after_trade t = current_balance self /\
      current_position t = position self
  end.

(** A sequence of record types made of matched pairs: an open followed
    by the close of the same side. *)
Inductive closed_pairs : list string -> Prop :=
| cp_nil : closed_pairs []
| cp_long l : closed_pairs l -> closed_pairs (l ++ ["BUY_LONG"; "CLOSE_LONG"])
| cp_short l : closed_pairs l -> closed_pairs (l ++ ["SELL_SHORT"; "CLOSE_SHORT"]).

Definition trade_types (self : Backtester num) : list string :=
  map (fun t => t_type t) (trade_log self).

End Reports.

(** ** Exact arithmetic: the rationals *)

Definition Qltb (x y : Q) : bool := negb (Qle_bool y x).

#[export] Instance Q_Arith : Arith Q := {|
  zero := 0%Q;
  one := 1%Q;
  MIN_ORDER_USDT := 5%Q;
  add := Qplus;
  sub := Qminus;
  mul := Qmult;
  quot := Qdiv;
  neg := Qopp;
  abs := Qabs;
  ltb := Qltb;
  leb := Qle_bool;
  eqb := Qeq_bool;
  zero_division_raises := true
|}.

(** ** Binary64 arithmetic: Python's own *)

#[export] Instance float_Arith : Arith float := {|
  zero := 0%float;
  one := 1%float;
  MIN_ORDER_USDT := 5%float;
  add := PrimFloat.add;
  sub := PrimFloat.sub;
  mul := PrimFloat.mul;
  quot := PrimFloat.div;
  neg := PrimFloat.opp;
  abs := PrimFloat.abs;
  ltb := PrimFloat.ltb;
  leb := PrimFloat.leb;
  eqb := PrimFloat.eqb;
  zero_division_raises := true
|}.

(** The same arithmetic when the prices are numpy.float64: the only
    difference is what a division by zero does. It is named where it is
    meant, and never found by instance search. *)
Definition numpy_Arith : Arith float := {|
  zero := 0%float;
  one := 1%float;
  MIN_ORDER_USDT := 5%float;
  add := PrimFloat.add;
  sub := PrimFloat.sub;
  mul := PrimFloat.mul;
  quot := PrimFloat.div;
  neg := PrimFloat.opp;
  abs := PrimFloat.abs;
  ltb := PrimFloat.ltb;
  leb := PrimFloat.leb;
  eqb := PrimFloat.eqb;
  zero_division_raises := false
|}.


(** ** Two scenarios in binary64

    Every number below and every intermediate result is an integer or a
    dyadic fraction well inside 53 bits, so binary64 computes them
    exactly. *)

(** An engine with balance 2^20 and fee 2^-10. *)
Definition fee_engine : Backtester float :=
  init [] 1048576%float 0.0009765625%float.

(** Three candles: a bearish one closing at 1, a bullish one closing at
    3, a bearish one closing at 2. *)
Definition squeeze_candles : list (candle float) :=
  [ {| c_timestamp := 1%Z; c_open := 2%float; c_high := 2%float;
       c_low := 1%float; c_close := 1%float; c_volume := 1%float |};
    {| c_timestamp := 2%Z; c_open := 1%float; c_high := 3%float;
       c_low := 1%float; c_close := 3%float; c_volume := 1%float |};
    {| c_timestamp := 3%Z; c_open := 3%float; c_high := 3%float;
       c_low := 2%float; c_close := 2%float; c_volume := 1%float |} ].

(** An engine over these candles with balance 10 and no fee, and the
    same engine after the reference policy, entering with all of the
    balance, has seen the first candle. *)
Definition squeeze_engine : Backtester float :=
  init squeeze_candles 10%float 0%float.

Definition squeeze_engine_short : Backtester float :=
  snd (run_candles (Strategy_on_candle 1%float) tt (firstn 1 squeeze_candles)
         squeeze_engine).

(** A policy with an attribute of its own, the number of candles it has
    seen, which its decisions never read. *)
Definition counting_policy : strategy Q nat :=
  fun seen row =>
    GetPositionType (fun position_type =>
      if String.eqb position_type "NONE" then
        OpenLong (c_timestamp row) (c_close row) 1%Q (fun _ => Done (S seen))
      else
        CloseLong (c_timestamp row) (c_close row) (fun _ => Done (S seen))).

(** ** Vocabulary of the properties, in any arithmetic *)

Section Vocabulary.

Context {num : Type} {AR : Arith num}.
Local Open Scope num_scope.

(** The sample the loop logs for a row, on the engine as the callback
    left it: at the row's timestamp, the balance plus size x close when
    the size is not zero, and the balance alone when it is. *)
Definition sample_as_logged (row : candle num) (self : Backtester num)
    (e : equity_sample num) : Prop :=
  e_timestamp e = c_timestamp row /\
  ((position self =? zero) = false ->
   equity e = current_balance self + position self * c_close row) /\
  ((position self =? zero) = true -> equity e = current_balance self).

(** The entry price is zero only when the size is, and a size that is
    not zero has a strictly positive entry price. *)
Definition entry_price_invariant (self : Backtester num) : Prop :=
  ((position self =? zero) = false -> (zero <? entry_price self) = true) /\
  ((entry_price self =? zero) = true -> (position self =? zero) = true).

End Vocabulary.

(** ** Scenarios at the edge of binary64 *)

(** Whether a record type is an open, or a close. *)
Definition is_open_type (ty : string) : bool :=
  existsb (String.eqb ty) ["BUY_LONG"%string; "SELL_SHORT"%string].

Definition is_close_type (ty : string) : bool :=
  existsb (String.eqb ty) ["CLOSE_LONG"%string; "CLOSE_SHORT"%string].

(** Every close of the sequence comes right after an open; [after_open]
    says whether the sequence itself comes right after one. *)
Fixpoint closes_follow_opens_from (after_open : bool) (l : list string) : bool :=
  match l with
  | [] => true
  | ty :: l' =>
      if is_close_type ty
      then after_open && closes_follow_opens_from false l'
      else closes_follow_opens_from (is_open_type ty) l'
  end.

Definition closes_follow_opens (l : list string) : bool :=
  closes_follow_opens_from false l.

(** Whether the sequence ends on an open. *)
Fixpoint ends_on_open (after_open : bool) (l : list string) : bool :=
  match l with
  | [] => after_open
  | ty :: l' => ends_on_open (is_open_type ty) l'
  end.

(** The log is in order: every close follows an open, and unless the
    log ends on an open the position is the 0.0 a close or the
    constructor assigned. *)
Definition log_in_order {num : Type} {AR : Arith num} (self : Backtester num) : Prop :=
  closes_follow_opens (trade_types self) = true /\
  (ends_on_open false (trade_types self) = false -> position self = zero).

(** A frame of one bearish row that closes at zero. *)
Definition zero_close_candles : list (candle float) :=
  [ {| c_timestamp := 1%Z; c_open := 1%float; c_high := 1%float;
       c_low := 0%float; c_close := 0%float; c_volume := 1%float |} ].


(** A frame of one row whose prices are missing. *)
Definition missing_candles : list (candle float) :=
  [ {| c_timestamp := 1%Z; c_open := nan; c_high := nan; c_low := nan;
       c_close := nan; c_volume := nan |} ].

(** ** Vocabulary of the properties, in exact arithmetic *)

Local Open Scope Q_scope.

(** The fee is a fraction in [0, 1). *)
Definition valid_fee (f : Q) : Prop := 0 <= f /\ f < 1.

(** The reasons for which an order is rejected. *)
Inductive rejected (self : Backtester Q) : order Q -> Prop :=
| rej_open_long_in_position ts price pct :
    ~ position self == 0 -> rejected self (OPEN_LONG ts price pct)
| rej_open_short_in_position ts price pct :
    ~ position self == 0 -> rejected self (OPEN_SHORT ts price pct)
| rej_close_long_no_position ts price :
    position self <= 0 -> rejected self (CLOSE_LONG ts price)
| rej_close_short_no_position ts price :
    0 <= position self -> rejected self (CLOSE_SHORT ts price)
| rej_open_long_fraction ts price pct :
    ~ (0 < pct /\ pct <= 1) -> rejected self (OPEN_LONG ts price pct)
| rej_open_short_fraction ts price pct :
    ~ (0 < pct /\ pct <= 1) -> rejected self (OPEN_SHORT ts price pct)
| rej_open_long_notional ts price pct :
    current_balance self * pct < 5 -> rejected self (OPEN_LONG ts price pct)
| rej_open_short_notional ts price pct :
    current_balance self * pct < 5 -> rejected self (OPEN_SHORT ts price pct)
| rej_open_long_balance ts price pct :
    current_balance self <= 0 -> rejected self (OPEN_LONG ts price pct)
| rej_open_short_balance ts price pct :
    current_balance self <= 0 -> rejected self (OPEN_SHORT ts price pct)
| rej_close_short_balance ts price :
    current_balance self < Qabs (position self) * price * (1 + fee self) ->
    rejected self (CLOSE_SHORT ts price).

(** Size and entry price are zero together, and an open position has a
    strictly positive entry price. *)
Definition flat_invariant (self : Backtester Q) : Prop :=
  (position self == 0 <-> entry_price self == 0) /\
  (~ position self == 0 -> 0 < entry_price self).

(** Mark-to-market equity: balance + size x last close. *)
Definition mark_to_market (self : Backtester Q) (close_price : Q) : Q :=
  current_balance self + position self * close_price.

(** The sample of a candle is taken on the engine as the callback left
    it, at the candle's timestamp and close. *)
Definition sample_of (row : candle Q) (self : Backtester Q)
    (e : equity_sample Q) : Prop :=
  e_timestamp e = c_timestamp row /\
  equity e == mark_to_market self (c_close row).

(** The log and the position agree: matched pairs only when flat, and
    one more open, of the side held, when a position is held. *)
Definition log_matches_position (self : Backtester Q) : Prop :=
  (position self == 0 /\ closed_pairs (trade_types self)) \/
  (0 < position self /\
   exists l, trade_types self = l ++ ["BUY_LONG"%string] /\ closed_pairs l) \/
  (position self < 0 /\
   exists l, trade_types self = l ++ ["SELL_SHORT"%string] /\ closed_pairs l).

(** Without fee, balance plus the cost basis of the open position is the
    initial balance plus the realized pnl. *)
Definition books_balance (self : Backtester Q) : Prop :=
  fee self == 0 /\
  current_balance self + position self * entry_price self
  == initial_balance self + closed_pnl self.

Close Scope Q_scope.

(** ** Facts that hold in any arithmetic *)

Section EngineFacts.

Context {num : Type} {AR : Arith num}.
Local Open Scope string_scope.
Local Open Scope list_scope.
Local Open Scope num_scope.

Local Abbreviation state := (Backtester num).

Ltac run_order :=
  unfold open_long, close_long, open_short, close_short, _execute_order,
    py_div, bind, get, put, ret, raise, trade_log_append; cbn.

Lemma open_long_cases (self : state) ts price pct :
  open_long ts price pct self =
    if (position self >? zero) || (position self <? zero)
       || (current_balance self <=? zero)
       || negb ((zero <? pct) && (pct <=? one))
       || (current_balance self * pct <? MIN_ORDER_USDT)
    then (Returned false, self)
    else if zero_division_raises && (price =? zero)
    then (Raised ZeroDivisionError, self)
    else
      let amount_coins := quot (current_balance self * pct) price * (one - fee self) in
      let balance' := current_balance self - current_balance self * pct in
      (Returned true,
       snd (trade_log_append
              {| t_timestamp := ts; t_type := "BUY_LONG"; t_price := price;
                 amount_coins := amount_coins;
                 cash := cost_usdt (current_balance self * pct);
                 balance_after_trade := balance';
                 current_position := amount_coins; pnl_usdt := zero |}
              (assign self balance' amount_coins price))).
Proof.
  run_order.
  destruct (position self >? zero); [reflexivity|].
  destruct (position self <? zero); [reflexivity|].
  destruct (current_balance self <=? zero); [reflexivity|].
  destruct ((zero <? pct) && (pct <=? one)); [|reflexivity].
  destruct (current_balance self * pct <? MIN_ORDER_USDT); [reflexivity|].
  destruct (zero_division_raises && (price =? zero)); reflexivity.
Qed.

Lemma close_long_cases (self : state) ts price :
  close_long ts price self =
    if position self <=? zero then (Returned false, self)
    else
      let net_revenue_usdt := position self * price * (one - fee self) in
      let balance' := current_balance self + net_revenue_usdt in
      (Returned true,
       snd (trade_log_append
              {| t_timestamp := ts; t_type := "CLOSE_LONG"; t_price := price;
                 amount_coins := zero; cash := revenue_usdt net_revenue_usdt;
                 balance_after_trade := balance'; current_position := zero;
                 pnl_usdt := net_revenue_usdt - position self * entry_price self |}
              (assign self balance' zero zero))).
Proof.
  run_order. destruct (position self <=? zero); reflexivity.
Qed.

Lemma open_short_cases (self : state) ts price pct :
  open_short ts price pct self =
    if (position self <? zero) || (position self >? zero)
       || negb ((zero <? pct) && (pct <=? one))
       || (current_balance self * pct <? MIN_ORDER_USDT)
    then (Returned false, self)
    else if zero_division_raises && (price =? zero)
    then (Raised ZeroDivisionError, self)
    else
      let amount_coins_short :=
        quot (current_balance self * pct) price * (one - fee self) in
      let received := current_balance self * pct * (one - fee self) in
      let balance' := current_balance self + received in
      (Returned true,
       snd (trade_log_append
              {| t_timestamp := ts; t_type := "SELL_SHORT"; t_price := price;
                 amount_coins := - amount_coins_short;
                 cash := revenue_usdt received;
                 balance_after_trade := balance';
                 current_position := - amount_coins_short; pnl_usdt := zero |}
              (assign self balance' (- amount_coins_short) price))).
Proof.
  run_order.
  destruct (position self <? zero); [reflexivity|].
  destruct (position self >? zero); [reflexivity|].
  destruct ((zero <? pct) && (pct <=? one)); [|reflexivity].
  destruct (current_balance self * pct <? MIN_ORDER_USDT); [reflexivity|].
  destruct (zero_division_raises && (price =? zero)); reflexivity.
Qed.

Lemma close_short_cases (self : state) ts price :
  close_short ts price self =
    let cost_to_buy_back := abs (position self) * price * (one + fee self) in
    if (position self >=? zero) || (current_balance self <? cost_to_buy_back)
    then (Returned false, self)
    else
      let balance' := current_balance self - cost_to_buy_back in
      (Returned true,
       snd (trade_log_append
              {| t_timestamp := ts; t_type := "CLOSE_SHORT"; t_price := price;
                 amount_coins := zero; cash := cost_usdt cost_to_buy_back;
                 balance_after_trade := balance'; current_position := zero;
                 pnl_usdt :=
                   abs (position self) * entry_price self * (one - fee self)
                   - cost_to_buy_back |}
              (assign self balance' zero zero))).
Proof.
  run_order.
  destruct (position self >=? zero); [reflexivity|].
  destruct (current_balance self <? abs (position self) * price * (one + fee self));
    reflexivity.
Qed.

(** An order that does not return [True] has assigned nothing. *)
Lemma execute_order_unchanged (order_type : string) (price : num) ts pct
    (self self' : state) (r : outcome bool) :
  _execute_order order_type price ts pct self = (r, self') ->
  r <> Returned true -> self' = self.
Proof.
  unfold _execute_order, py_div, bind, get, put, ret, raise, trade_log_append.
  cbn.
  repeat match goal with
  | |- context [if ?b then _ else _] => destruct b
  end; intros H Hr; inversion H; subst; try reflexivity; congruence.
Qed.

Lemma apply_order_unchanged (o : order num) (self self' : state) r :
  apply_order o self = (r, self') -> r <> Returned true -> self' = self.
Proof.
  destruct o; cbn [apply_order];
    unfold open_long, close_long, open_short, close_short;
    apply execute_order_unchanged.
Qed.

Lemma same_frame_refl (self : state) : same_frame self self.
Proof. repeat split. Qed.

Lemma same_frame_trans (s1 s2 s3 : state) :
  same_frame s1 s2 -> same_frame s2 s3 -> same_frame s1 s3.
Proof.
  unfold same_frame. intros (?&?&?&?) (?&?&?&?). repeat split; congruence.
Qed.

Lemma execute_order_frame (order_type : string) (price : num) ts pct (self : state) :
  same_frame self (snd (_execute_order order_type price ts pct self)).
Proof.
  unfold _execute_order, py_div, bind, get, put, ret, raise, trade_log_append.
  cbn.
  repeat match goal with
  | |- context [if ?b then _ else _] => destruct b
  end; cbn; repeat split.
Qed.

Lemma apply_order_frame (o : order num) (self : state) :
  same_frame self (snd (apply_order o self)).
Proof.
  destruct o; cbn [apply_order];
    unfold open_long, close_long, open_short, close_short;
    apply execute_order_frame.
Qed.

Lemma bind_frame {X Y : Type} (m : M num X) (k : X -> M num Y) (self : state) :
  same_frame self (snd (m self)) ->
  (forall x s, same_frame s (snd (k x s))) ->
  same_frame self (snd (bind m k self)).
Proof.
  intros Hm Hk. unfold bind. destruct (m self) as [[x|e] s]; cbn in *.
  - eapply same_frame_trans; [exact Hm | apply Hk].
  - exact Hm.
Qed.

Lemma run_prog_frame {R : Type} (p : prog num R) (self : state) :
  same_frame self (snd (run_prog p self)).
Proof.
  revert self. induction p; intros self; cbn [run_prog];
    try (apply bind_frame; [apply execute_order_frame | auto]);
    try (apply bind_frame; [apply same_frame_refl | auto]).
  apply same_frame_refl.
Qed.

(** Callbacks that take the same decisions drive the engine alike. *)
Lemma bind_forget {X R1 R2 : Type} (m : M num X) (k1 : X -> M num R1)
    (k2 : X -> M num R2) (self : state) :
  (forall x s, forget (k1 x s) = forget (k2 x s)) ->
  forget (bind m k1 self) = forget (bind m k2 self).
Proof.
  intros Hk. unfold bind. destruct (m self) as [[x|e] s]; [apply Hk | reflexivity].
Qed.

Lemma same_decisions_run {R1 R2 : Type} (p1 : prog num R1) (p2 : prog num R2) :
  same_decisions p1 p2 ->
  forall self : state, forget (run_prog p1 self) = forget (run_prog p2 self).
Proof.
  induction 1; intros self; cbn [run_prog];
    try reflexivity; apply bind_forget; auto.
Qed.

Lemma forget_Returned {R : Type} (m : outcome R * state) (self' : state) :
  forget m = (Returned tt, self') -> exists r, m = (Returned r, self').
Proof.
  destruct m as [[r|e] s]; cbn; intros H; inversion H; subst. eauto.
Qed.

Lemma forget_Raised {R : Type} (m : outcome R * state) e (self' : state) :
  forget m = (Raised e, self') -> m = (Raised e, self').
Proof.
  destruct m as [[r|e'] s]; cbn; intros H; inversion H; subst. reflexivity.
Qed.

Lemma run_candles_cons {S : Type} (strat : strategy num S) (st : S)
    (row : candle num) (rows : list (candle num)) (self : state) :
  run_candles strat st (row :: rows) self =
    match run_prog (strat st row) self with
    | (Returned st', self') =>
        run_candles strat st' rows
          (snd (equity_log_append
                  {| e_timestamp := c_timestamp row;
                     equity := current_equity self' (c_close row) |} self'))
    | (Raised e, self') => (Raised e, self')
    end.
Proof.
  cbn [run_candles]. unfold bind at 1.
  destruct (run_prog (strat st row) self) as [[st'|e] self']; reflexivity.
Qed.

Lemma run_backtest_unfold {S : Type} (strat : strategy num S) (st : S) (self : state) :
  run_backtest strat st self =
    match run_candles strat st (data self) self with
    | (Returned st', self') =>
        match rev (data self') with
        | [] => (Raised IndexError, self')
        | _ :: _ => (Returned st', self')
        end
    | (Raised e, self') => (Raised e, self')
    end.
Proof.
  unfold run_backtest, display_results, bind, get, ret, raise.
  destruct (run_candles strat st (data self) self) as [[st'|e] self'];
    [|reflexivity].
  destruct (rev (data self')); reflexivity.
Qed.

Lemma same_decisions_run_candles {S1 S2 : Type}
    (strat1 : strategy num S1) (strat2 : strategy num S2) :
  (forall st1 st2 row, same_decisions (strat1 st1 row) (strat2 st2 row)) ->
  forall rows st1 st2 (self : state),
    forget (run_candles strat1 st1 rows self)
    = forget (run_candles strat2 st2 rows self).
Proof.
  intros Hsame rows. induction rows as [|row rows IH]; intros st1 st2 self.
  - reflexivity.
  - rewrite !run_candles_cons.
    pose proof (same_decisions_run (Hsame st1 st2 row) self) as Hrun.
    destruct (run_prog (strat2 st2 row) self) as [[st2'|e] s2]; cbn in Hrun.
    + apply forget_Returned in Hrun. destruct Hrun as [st1' ->]. apply IH.
    + apply forget_Raised in Hrun. rewrite Hrun. reflexivity.
Qed.

Lemma same_decisions_run_backtest {S1 S2 : Type}
    (strat1 : strategy num S1) (strat2 : strategy num S2) :
  (forall st1 st2 row, same_decisions (strat1 st1 row) (strat2 st2 row)) ->
  forall st1 st2 (self : state),
    forget (run_backtest strat1 st1 self) = forget (run_backtest strat2 st2 self).
Proof.
  intros Hsame st1 st2 self. rewrite !run_backtest_unfold.
  pose proof (@same_decisions_run_candles _ _ strat1 strat2 Hsame
                (data self) st1 st2 self) as Hrun.
  destruct (run_candles strat2 st2 (data self) self) as [[st2'|e] s2];
    cbn in Hrun.
  - apply forget_Returned in Hrun. destruct Hrun as [st1' ->].
    destruct (rev (data s2)); reflexivity.
  - apply forget_Raised in Hrun. rewrite Hrun. reflexivity.
Qed.

(** Only a division by zero makes an order, a callback or the loop raise. *)
Lemma execute_order_raises (order_type : string) (price : num) ts pct
    (self self' : state) e :
  _execute_order order_type price ts pct self = (Raised e, self') ->
  e = ZeroDivisionError.
Proof.
  unfold _execute_order, py_div, bind, get, put, ret, raise, trade_log_append.
  cbn.
  repeat match goal with
  | |- context [if ?b then _ else _] => destruct b
  end; intros H; inversion H; reflexivity.
Qed.

Lemma bind_raises {X Y : Type} (m : M num X) (k : X -> M num Y)
    (self self' : state) e :
  (forall s s', m s = (Raised e, s') -> e = ZeroDivisionError) ->
  (forall x s s', k x s = (Raised e, s') -> e = ZeroDivisionError) ->
  bind m k self = (Raised e, self') -> e = ZeroDivisionError.
Proof.
  intros Hm Hk. unfold bind. destruct (m self) as [[x|e'] s] eqn:E.
  - apply Hk.
  - intros H. inversion H; subst. eapply Hm. exact E.
Qed.

Lemma run_prog_raises {R : Type} (p : prog num R) (self self' : state) e :
  run_prog p self = (Raised e, self') -> e = ZeroDivisionError.
Proof.
  revert self self'.
  induction p as [r|ts price pct k IH|ts price k IH|ts price pct k IH
                  |ts price k IH|k IH|k IH|k IH|k IH];
    intros self self'; cbn [run_prog];
    try (apply bind_raises;
         [ intros s s';
           first [ apply execute_order_raises
                 | unfold get; intros Hget; inversion Hget ]
         | intros x s s'; apply IH ]).
  unfold ret. intros Hret. inversion Hret.
Qed.

Lemma run_candles_raises {S : Type} (strat : strategy num S) (rows : list (candle num)) :
  forall (st : S) (self self' : state) e,
    run_candles strat st rows self = (Raised e, self') -> e = ZeroDivisionError.
Proof.
  induction rows as [|row rows IH]; intros st self self' e.
  - cbn. unfold ret. intros H. inversion H.
  - rewrite run_candles_cons.
    destruct (run_prog (strat st row) self) as [[st'|e'] s] eqn:E.
    + apply IH.
    + intros H. inversion H; subst. eapply run_prog_raises. exact E.
Qed.

(** The equity log after the loop has one sample for each callback that
    returned, taken on the engine as that callback left it. *)
Lemma run_candles_equity_log {S : Type} (strat : strategy num S)
    (rows : list (candle num)) :
  forall (st : S) (self : state),
    equity_log (snd (run_candles strat st rows self))
    = equity_log self
      ++ map sample_after (combine rows (callback_states strat st rows self)).
Proof.
  induction rows as [|row rows IH]; intros st self.
  - cbn. rewrite app_nil_r. reflexivity.
  - rewrite run_candles_cons. cbn [callback_states].
    pose proof (run_prog_frame (strat st row) self) as (_ & _ & _ & Hlog).
    destruct (run_prog (strat st row) self) as [[st'|e] s]; cbn [snd] in *.
    + rewrite IH. cbn [combine map equity_log_append snd equity_log].
      rewrite Hlog, <- app_assoc. reflexivity.
    + cbn. rewrite app_nil_r. exact Hlog.
Qed.

Lemma callback_states_length {S : Type} (strat : strategy num S)
    (rows : list (candle num)) :
  forall (st st' : S) (self : state),
    fst (run_candles strat st rows self) = Returned st' ->
    List.length (callback_states strat st rows self) = List.length rows.
Proof.
  induction rows as [|row rows IH]; intros st st' self.
  - reflexivity.
  - rewrite run_candles_cons. cbn [callback_states].
    destruct (run_prog (strat st row) self) as [[st1|e] s].
    + intros H. cbn [List.length]. f_equal. eapply IH. exact H.
    + cbn. intros H. inversion H.
Qed.

Lemma run_orders_cons (o : order num) (os : list (order num)) (self : state) :
  run_orders (o :: os) self =
    match apply_order o self with
    | (Returned _, self') => run_orders os self'
    | (Raised e, self') => (Raised e, self')
    end.
Proof.
  cbn [run_orders]. unfold bind.
  destruct (apply_order o self) as [[b|e] self']; reflexivity.
Qed.

End EngineFacts.

(** ** Facts of the exact model *)

Section ExactFacts.

Local Open Scope Q_scope.

Lemma Qltb_lt (x y : Q) : Qltb x y = true <-> x < y.
Proof.
  unfold Qltb. rewrite negb_true_iff. split; intros H.
  - apply Qnot_le_lt. intros Hle. apply Qle_bool_iff in Hle. congruence.
  - destruct (Qle_bool y x) eqn:E; [|reflexivity].
    apply Qle_bool_iff in E. exfalso. lra.
Qed.

Lemma Qltb_ge (x y : Q) : Qltb x y = false <-> y <= x.
Proof.
  unfold Qltb. rewrite negb_false_iff. apply Qle_bool_iff.
Qed.

Lemma Qle_bool_gt (x y : Q) : Qle_bool x y = false <-> y < x.
Proof.
  rewrite <- Qltb_lt. unfold Qltb. rewrite negb_true_iff. reflexivity.
Qed.

Lemma Qeq_bool_false (x y : Q) : Qeq_bool x y = false <-> ~ x == y.
Proof.
  split; intros H.
  - apply Qeq_bool_neq. exact H.
  - destruct (Qeq_bool x y) eqn:E; [|reflexivity].
    apply Qeq_bool_iff in E. contradiction.
Qed.

End ExactFacts.

(** Reading the tests of the source as propositions on rationals. *)
Ltac exact_arith :=
  cbn [zero one MIN_ORDER_USDT add sub mul quot neg abs ltb leb eqb
       zero_division_raises andb Q_Arith] in *.

Ltac test_true t :=
  let E := fresh "E" in
  assert (E : t = true)
    by (first [ apply Qltb_lt | apply Qle_bool_iff | apply Qeq_bool_iff ];
        try lra; try nra; auto);
  rewrite E; clear E.

Ltac test_false t :=
  let E := fresh "E" in
  assert (E : t = false)
    by (first [ apply Qltb_ge | apply Qle_bool_gt | apply Qeq_bool_false ];
        try lra; try nra; try (intro; lra); auto);
  rewrite E; clear E.

Ltac by_reading :=
  repeat match goal with |- _ /\ _ => split end; try reflexivity; reflexivity.

Ltac split_tests :=
  repeat match goal with
  | |- context [Qltb ?x ?y] =>
      let E := fresh "E" in
      destruct (Qltb x y) eqn:E;
      [apply Qltb_lt in E | apply Qltb_ge in E]
  | |- context [Qle_bool ?x ?y] =>
      let E := fresh "E" in
      destruct (Qle_bool x y) eqn:E;
      [apply Qle_bool_iff in E | apply Qle_bool_gt in E]
  | |- context [Qeq_bool ?x ?y] =>
      let E := fresh "E" in
      destruct (Qeq_bool x y) eqn:E;
      [apply Qeq_bool_iff in E | apply Qeq_bool_false in E]
  end.

(** ** Facts of binary64

    The comparisons of binary64 are those of [SpecFloat] on the decoded
    operands; a NaN compares with nothing. *)

Section Binary64Facts.

Local Open Scope float_scope.

Lemma SFcompare_antisym (x y : spec_float) :
  SFcompare y x = option_map CompOpp (SFcompare x y).
Proof.
  destruct x as [sx|sx| |sx mx ex], y as [sy|sy| |sy my ey]; cbn;
    try reflexivity;
    try (destruct sx; reflexivity); try (destruct sy; reflexivity);
    try (destruct sx, sy; reflexivity).
  destruct sx, sy; cbn; try reflexivity;
    rewrite (Z.compare_antisym ex ey);
    destruct (ex ?= ey)%Z; cbn; try reflexivity;
    rewrite (Pos.compare_cont_antisym mx my Eq); reflexivity.
Qed.

Lemma float_leb_not_gt (x y : float) : (x <=? y) = true -> (y <? x) = false.
Proof.
  rewrite leb_spec, ltb_spec. unfold SFleb, SFltb.
  rewrite (SFcompare_antisym (Prim2SF x) (Prim2SF y)).
  destruct (SFcompare (Prim2SF x) (Prim2SF y)) as [[]|]; cbn; congruence.
Qed.

Lemma float_ltb_not_ge (x y : float) : (x <? y) = true -> (y <=? x) = false.
Proof.
  rewrite leb_spec, ltb_spec. unfold SFleb, SFltb.
  rewrite (SFcompare_antisym (Prim2SF x) (Prim2SF y)).
  destruct (SFcompare (Prim2SF x) (Prim2SF y)) as [[]|]; cbn; congruence.
Qed.

Lemma float_eqb_not_lt (x y : float) :
  (x =? y) = true -> (x <? y) = false /\ (y <? x) = false.
Proof.
  rewrite eqb_spec, !ltb_spec. unfold SFeqb, SFltb.
  rewrite (SFcompare_antisym (Prim2SF x) (Prim2SF y)).
  destruct (SFcompare (Prim2SF x) (Prim2SF y)) as [[]|]; cbn; split; congruence.
Qed.

Lemma float_ltb_not_eq (x y : float) : (x <? y) = true -> (y =? x) = false.
Proof.
  rewrite eqb_spec, ltb_spec. unfold SFeqb, SFltb.
  rewrite (SFcompare_antisym (Prim2SF x) (Prim2SF y)).
  destruct (SFcompare (Prim2SF x) (Prim2SF y)) as [[]|]; cbn; congruence.
Qed.

(** C2 holds of the binary64 engine as well, every test and operation
    being Python's own. *)
Lemma open_long_succeeds_binary64 (self : Backtester float) (ts : timestamp)
    (price pct : float) :
  (position self =? 0) = true ->
  (0 <? pct) = true /\ (pct <=? 1) = true ->
  (5 <=? current_balance self * pct) = true ->
  (0 <? current_balance self) = true ->
  (0 <? price) = true ->
  exists (self' : Backtester float) (t : trade_info float),
    open_long ts price pct self = (Returned true, self') /\
    position self' = (current_balance self * pct / price) * (1 - fee self) /\
    current_balance self' = current_balance self - current_balance self * pct /\
    entry_price self' = price /\
    trade_log self' = (trade_log self ++ [t])%list /\
    pnl_usdt t = 0 /\
    equity_log self' = equity_log self.
Proof.
  intros Hflat [Hpct0 Hpct1] Hmin Hbal Hprice.
  rewrite open_long_cases.
  cbn [zero one MIN_ORDER_USDT add sub mul quot neg abs ltb leb eqb
       zero_division_raises andb float_Arith].
  destruct (float_eqb_not_lt Hflat) as [-> ->].
  rewrite (float_ltb_not_ge Hbal), Hpct0, Hpct1,
    (float_leb_not_gt Hmin), (float_ltb_not_eq Hprice).
  cbn. eexists; eexists.
  repeat match goal with |- _ /\ _ => split end; reflexivity.
Qed.

(** C3 in binary64. *)
Lemma close_short_succeeds_binary64 (self : Backtester float) (ts : timestamp)
    (price : float) :
  (position self <? 0) = true ->
  (PrimFloat.abs (position self) * price * (1 + fee self)
   <=? current_balance self) = true ->
  exists (self' : Backtester float) (t : trade_info float),
    close_short ts price self = (Returned true, self') /\
    current_balance self'
    = current_balance self
      - PrimFloat.abs (position self) * price * (1 + fee self) /\
    position self' = 0 /\
    entry_price self' = 0 /\
    trade_log self' = (trade_log self ++ [t])%list /\
    pnl_usdt t
    = PrimFloat.abs (position self) * entry_price self * (1 - fee self)
      - PrimFloat.abs (position self) * price * (1 + fee self) /\
    equity_log self' = equity_log self.
Proof.
  intros Hshort Hcost.
  rewrite close_short_cases.
  cbn [zero one MIN_ORDER_USDT add sub mul quot neg abs ltb leb eqb
       zero_division_raises andb float_Arith].
  cbv zeta.
  rewrite (float_ltb_not_ge Hshort), (float_leb_not_gt Hcost).
  cbn. eexists; eexists.
  repeat match goal with |- _ /\ _ => split end; reflexivity.
Qed.

(** C4 in binary64. *)
Lemma close_long_succeeds_binary64 (self : Backtester float) (ts : timestamp)
    (price : float) :
  (0 <? position self) = true ->
  exists (self' : Backtester float) (t : trade_info float),
    close_long ts price self = (Returned true, self') /\
    current_balance self'
    = current_balance self + position self * price * (1 - fee self) /\
    position self' = 0 /\
    entry_price self' = 0 /\
    trade_log self' = (trade_log self ++ [t])%list /\
    pnl_usdt t
    = position self * price * (1 - fee self) - position self * entry_price self /\
    equity_log self' = equity_log self.
Proof.
  intros Hlong.
  rewrite close_long_cases.
  cbn [zero one MIN_ORDER_USDT add sub mul quot neg abs ltb leb eqb
       zero_division_raises andb float_Arith].
  rewrite (float_ltb_not_ge Hlong).
  cbn. eexists; eexists.
  repeat match goal with |- _ /\ _ => split end; reflexivity.
Qed.

End Binary64Facts.

Section ExactInvariants.

Local Open Scope Q_scope.

Ltac order_cases :=
  rewrite ?open_long_cases, ?close_long_cases, ?open_short_cases,
    ?close_short_cases;
  exact_arith; cbv zeta; split_tests; cbn [negb andb orb];
  cbn [snd fst trade_log_append assign current_balance position entry_price
       fee] in *.

Lemma coins_positive (notional price f : Q) :
  5 <= notional -> 0 < price -> f < 1 -> 0 < notional / price * (1 - f).
Proof.
  intros Hn Hp Hf. apply Qmult_lt_0_compat; [|lra].
  apply Qlt_shift_div_l; lra.
Qed.


(** One order keeps the flat invariant. *)
Lemma apply_order_flat_invariant (self : Backtester Q) (o : order Q) :
  valid_fee (fee self) -> 0 < order_price o -> flat_invariant self ->
  flat_invariant (snd (apply_order o self)).
Proof.
  intros [Hf0 Hf1] Hp Hinv.
  destruct o; cbn [apply_order order_price] in *; order_cases;
    try exact Hinv; try (exfalso; lra); unfold flat_invariant; cbn.
  - match goal with
    | H : 5 <= _ |- _ => pose proof (coins_positive H Hp Hf1) as Hcoins
    end.
    split; [split; intros H0; exfalso; lra | intros _; exact Hp].
  - split; [split; reflexivity | intros H0; exfalso; apply H0; reflexivity].
  - match goal with
    | H : 5 <= _ |- _ => pose proof (coins_positive H Hp Hf1) as Hcoins
    end.
    split; [split; intros H0; exfalso; lra | intros _; exact Hp].
  - split; [split; reflexivity | intros H0; exfalso; apply H0; reflexivity].
Qed.

Lemma run_orders_invariant (P : Backtester Q -> Prop) (os : list (order Q)) :
  (forall o self, In o os -> valid_fee (fee self) -> P self ->
                  P (snd (apply_order o self))) ->
  forall self, valid_fee (fee self) -> P self -> P (snd (run_orders os self)).
Proof.
  induction os as [|o os IH]; intros Hstep self Hfee HP.
  - exact HP.
  - rewrite run_orders_cons.
    pose proof (Hstep o self (or_introl eq_refl) Hfee HP) as HP'.
    pose proof (apply_order_frame o self) as (_ & _ & Hfee' & _).
    destruct (apply_order o self) as [[b|e] self']; cbn [snd] in *.
    + apply IH; [| rewrite Hfee'; exact Hfee | exact HP'].
      intros o' s Hin. apply Hstep. right. exact Hin.
    + exact HP'.
Qed.

Lemma positive_prices_firstn (os : list (order Q)) (n : nat) :
  Forall (fun o => 0 < order_price o) os ->
  Forall (fun o => 0 < order_price o) (firstn n os).
Proof.
  intros H. rewrite <- (firstn_skipn n os) in H.
  apply Forall_app in H. apply H.
Qed.

Lemma current_equity_mark_to_market (self : Backtester Q) (close_price : Q) :
  current_equity self close_price == mark_to_market self close_price.
Proof.
  unfold current_equity, mark_to_market. exact_arith.
  destruct (Qeq_bool (position self) 0) eqn:E; cbn [negb].
  - apply Qeq_bool_iff in E. rewrite E. ring.
  - reflexivity.
Qed.

(** What a round trip at one price records, in exact arithmetic: a long
    one books a single fee, [f * (1 - f) * notional], although the balance
    has lost [(2 * f - f * f) * notional]; a short one books
    [2 * f * (1 - f) * notional]. *)
Lemma long_round_trip_pnl (self : Backtester Q) (ts : timestamp) (price pct : Q) :
  valid_fee (fee self) ->
  position self == 0 ->
  0 < pct /\ pct <= 1 ->
  5 <= current_balance self * pct ->
  0 < price ->
  exists (self' : Backtester Q) (pnl : Q),
    long_round_trip ts price pct self = (Returned true, self') /\
    pnl_log self' = pnl_log self ++ [0; pnl] /\
    pnl == - (fee self * (1 - fee self) * (current_balance self * pct)) /\
    current_balance self' - current_balance self
    == - ((2 * fee self - fee self * fee self) * (current_balance self * pct)).
Proof.
  intros [Hf0 Hf1] Hflat [Hp0 Hp1] Hmin Hprice.
  pose proof (coins_positive Hmin Hprice Hf1) as Hcoins.
  assert (Hbal : 0 < current_balance self) by nra.
  unfold long_round_trip, bind.
  rewrite open_long_cases. exact_arith.
  test_false (Qltb 0 (position self)).
  test_false (Qltb (position self) 0).
  test_false (Qle_bool (current_balance self) 0).
  test_true (Qltb 0 pct).
  test_true (Qle_bool pct 1).
  test_false (Qltb (current_balance self * pct) 5).
  test_false (Qeq_bool price 0).
  cbn [negb andb orb]. cbv zeta.
  rewrite close_long_cases. exact_arith.
  cbn [snd trade_log_append assign position current_balance fee entry_price
       trade_log].
  test_false (Qle_bool (current_balance self * pct / price * (1 - fee self)) 0).
  cbv zeta.
  eexists; eexists. split; [reflexivity|]. split; [|split].
  - unfold pnl_log. cbn [snd trade_log_append trade_log].
    rewrite <- app_assoc, map_app. reflexivity.
  - cbn [pnl_usdt]. field. lra.
  - cbn. field. lra.
Qed.

Lemma short_round_trip_pnl (self : Backtester Q) (ts : timestamp) (price pct : Q) :
  valid_fee (fee self) ->
  position self == 0 ->
  0 < pct /\ pct <= 1 ->
  5 <= current_balance self * pct ->
  0 < price ->
  exists (self' : Backtester Q) (pnl : Q),
    short_round_trip ts price pct self = (Returned true, self') /\
    pnl_log self' = pnl_log self ++ [0; pnl] /\
    pnl == - (2 * fee self * (1 - fee self) * (current_balance self * pct)) /\
    current_balance self' - current_balance self
    == - (fee self * (1 - fee self) * (current_balance self * pct)).
Proof.
  intros [Hf0 Hf1] Hflat [Hp0 Hp1] Hmin Hprice.
  pose proof (coins_positive Hmin Hprice Hf1) as Hcoins.
  assert (Hbal : 0 < current_balance self) by nra.
  set (coins := current_balance self * pct / price * (1 - fee self)) in *.
  assert (Habs : Qabs (- coins) == coins)
    by (rewrite Qabs_opp; apply Qabs_pos; lra).
  assert (Hcost : coins * price
                  == current_balance self * pct * (1 - fee self))
    by (unfold coins; field; lra).
  unfold short_round_trip, bind.
  rewrite open_short_cases. exact_arith.
  test_false (Qltb 0 (position self)).
  test_false (Qltb (position self) 0).
  test_true (Qltb 0 pct).
  test_true (Qle_bool pct 1).
  test_false (Qltb (current_balance self * pct) 5).
  test_false (Qeq_bool price 0).
  cbn [negb andb orb]. cbv zeta.
  rewrite close_short_cases. exact_arith.
  cbn [snd trade_log_append assign position current_balance fee entry_price
       trade_log].
  fold coins.
  test_false (Qle_bool 0 (- coins)).
  assert (E : Qltb (current_balance self
                    + current_balance self * pct * (1 - fee self))
                   (Qabs (- coins) * price * (1 + fee self)) = false).
  { apply Qltb_ge. rewrite Habs, Hcost. nra. }
  cbv zeta. rewrite E. cbn [orb].
  eexists; eexists. split; [reflexivity|]. split; [|split].
  - unfold pnl_log. cbn [snd trade_log_append trade_log].
    rewrite <- app_assoc, map_app. reflexivity.
  - cbn [pnl_usdt]. rewrite Habs.
    transitivity (coins * price * (1 - fee self) - coins * price * (1 + fee self));
      [ring|]. rewrite Hcost. ring.
  - cbn [snd trade_log_append assign current_balance]. rewrite Habs.
    transitivity (current_balance self * pct * (1 - fee self)
                  - coins * price * (1 + fee self)); [ring|].
    rewrite Hcost. ring.
Qed.

End ExactInvariants.

(** ** Division by zero, by arithmetic *)

Section ZeroDivision.

Context {num : Type} {AR : Arith num}.
Local Open Scope string_scope.
Local Open Scope list_scope.
Local Open Scope num_scope.

Local Abbreviation state := (Backtester num).

(** Where a division by zero does not raise, nothing does: an order, a
    callback and the loop all return. *)
Lemma execute_order_returns (order_type : string) (price : num) ts pct
    (self : state) :
  zero_division_raises = false ->
  exists b self', _execute_order order_type price ts pct self = (Returned b, self').
Proof.
  intros Hflag.
  unfold _execute_order, py_div, bind, get, put, ret, raise, trade_log_append.
  rewrite Hflag. cbn.
  repeat match goal with
  | |- context [if ?b then _ else _] => destruct b
  end; eexists; eexists; reflexivity.
Qed.

Lemma run_prog_returns {R : Type} (p : prog num R) :
  zero_division_raises = false ->
  forall self : state, exists r self', run_prog p self = (Returned r, self').
Proof.
  intros Hflag.
  induction p as [r|ts price pct k IH|ts price k IH|ts price pct k IH
                  |ts price k IH|k IH|k IH|k IH|k IH];
    intros self; cbn [run_prog];
    try (unfold open_long, close_long, open_short, close_short, bind;
         match goal with
         | |- context [_execute_order ?ty ?p ?t ?c self] =>
             destruct (execute_order_returns ty p t c self Hflag) as (b & s' & ->)
         end; apply IH);
    try (unfold bind, get; apply IH).
  eexists; eexists; reflexivity.
Qed.

Lemma run_candles_returns {S : Type} (strat : strategy num S)
    (rows : list (candle num)) :
  zero_division_raises = false ->
  forall (st : S) (self : state),
    exists st' self', run_candles strat st rows self = (Returned st', self').
Proof.
  intros Hflag. induction rows as [|row rows IH]; intros st self.
  - eexists; eexists; reflexivity.
  - rewrite run_candles_cons.
    destruct (run_prog_returns (strat st row) Hflag self) as (st1 & s1 & ->).
    apply IH.
Qed.

Lemma sample_after_as_logged (rs : candle num * state) :
  sample_as_logged (fst rs) (snd rs) (sample_after rs).
Proof.
  unfold sample_as_logged, sample_after, current_equity. cbn.
  split; [reflexivity|].
  split; intros H; rewrite H; reflexivity.
Qed.

(** A property every order keeps is kept by a sequence of orders. *)
Lemma run_orders_preserves (P : state -> Prop) (os : list (order num)) :
  (forall o self, In o os -> P self -> P (snd (apply_order o self))) ->
  forall self, P self -> P (snd (run_orders os self)).
Proof.
  induction os as [|o os IH]; intros Hstep self HP.
  - exact HP.
  - rewrite run_orders_cons.
    pose proof (Hstep o self (or_introl eq_refl) HP) as HP'.
    destruct (apply_order o self) as [[b|e] self']; cbn [snd] in *.
    + apply IH; [|exact HP']. intros o' s Hin. apply Hstep. right. exact Hin.
    + exact HP'.
Qed.

Lemma Forall_prefix {X : Type} (P : X -> Prop) (l : list X) (n : nat) :
  Forall P l -> Forall P (firstn n l).
Proof.
  intros H. rewrite <- (firstn_skipn n l) in H.
  apply Forall_app in H. apply H.
Qed.

(** One order at a positive price keeps the entry price in step with the
    size, in any arithmetic in which 0 == 0 and nothing above 0 is 0. *)
Lemma apply_order_entry_price (self : state) (o : order num) :
  (zero =? zero) = true ->
  (forall x, (zero <? x) = true -> (x =? zero) = false) ->
  (zero <? order_price o) = true ->
  entry_price_invariant self ->
  entry_price_invariant (snd (apply_order o self)).
Proof.
  intros Hzero Hpos Hp Hinv.
  pose proof (Hpos _ Hp) as Hne.
  destruct o; cbn [apply_order order_price] in *;
    rewrite ?open_long_cases, ?close_long_cases, ?open_short_cases,
      ?close_short_cases;
    cbv zeta;
    repeat match goal with
    | |- context [if ?b then _ else _] => destruct b
    end; cbn [snd]; try exact Hinv;
    unfold entry_price_invariant;
    cbn [snd trade_log_append assign position entry_price];
    split; intros H; congruence.
Qed.

End ZeroDivision.

Section Claims.

Local Open Scope Q_scope.

(** C2. From a flat position, with a sizing fraction in (0, 1], a notional
    [balance * fraction] of at least [MIN_ORDER_USDT] = 5 and a positive
    balance and price, [open_long] succeeds; afterwards the position is
    [(balance * fraction / price) * (1 - fee)], the balance has decreased
    by exactly [balance * fraction], the entry price is the price, and
    exactly one trade record, of pnl 0, was appended. *)
Theorem open_long_succeeds (self : Backtester Q) (ts : timestamp) (price pct : Q) :
  position self == 0 ->
  0 < pct /\ pct <= 1 ->
  5 <= current_balance self * pct ->
  0 < current_balance self ->
  0 < price ->
  exists (self' : Backtester Q) (t : trade_info Q),
    open_long ts price pct self = (Returned true, self') /\
    position self' = (current_balance self * pct / price) * (1 - fee self) /\
    current_balance self' = current_balance self - current_balance self * pct /\
    entry_price self' = price /\
    trade_log self' = trade_log self ++ [t] /\
    pnl_usdt t = 0 /\
    equity_log self' = equity_log self.
Proof.
  intros Hflat [Hpct0 Hpct1] Hmin Hbal Hprice.
  rewrite open_long_cases. exact_arith.
  test_false (Qltb 0 (position self)).
  test_false (Qltb (position self) 0).
  test_false (Qle_bool (current_balance self) 0).
  test_true (Qltb 0 pct).
  test_true (Qle_bool pct 1).
  test_false (Qltb (current_balance self * pct) 5).
  test_false (Qeq_bool price 0).
  cbn. eexists; eexists. by_reading.
Qed.

(** C1. An order that is rejected, for any of the reasons (an open while
    a position of either sign is held, a close with no position to close,
    a sizing fraction outside (0, 1], a notional below [MIN_ORDER_USDT], a
    balance that is not positive for an open, a balance below the cost of
    closing a short), returns [False] without raising and leaves the whole
    engine as it was: balance, position, entry price, trade log, equity
    log. *)
Theorem rejected_order_is_noop (self : Backtester Q) (o : order Q) :
  rejected self o -> apply_order o self = (Returned false, self).
Proof.
  intros Hrej.
  destruct Hrej; cbn [apply_order];
    rewrite ?open_long_cases, ?close_long_cases, ?open_short_cases,
      ?close_short_cases;
    exact_arith; cbv zeta; split_tests; cbn [negb andb orb];
    try reflexivity; exfalso;
    first [ lra | nra
          | match goal with H : ~ _ |- _ => apply H; try split; lra end ].
Qed.

(** C3. With a short position and a balance of at least
    [cost = |size| * price * (1 + fee)], [close_short] succeeds; afterwards
    the balance has decreased by exactly [cost], the recorded pnl is
    [|size| * entry_price * (1 - fee) - cost], size and entry price are
    both 0, and exactly one trade record was appended. *)
Theorem close_short_succeeds (self : Backtester Q) (ts : timestamp) (price : Q) :
  position self < 0 ->
  Qabs (position self) * price * (1 + fee self) <= current_balance self ->
  exists (self' : Backtester Q) (t : trade_info Q),
    close_short ts price self = (Returned true, self') /\
    current_balance self'
    = current_balance self - Qabs (position self) * price * (1 + fee self) /\
    pnl_usdt t
    = Qabs (position self) * entry_price self * (1 - fee self)
      - Qabs (position self) * price * (1 + fee self) /\
    position self' = 0 /\
    entry_price self' = 0 /\
    trade_log self' = trade_log self ++ [t] /\
    equity_log self' = equity_log self.
Proof.
  intros Hshort Hcost.
  rewrite close_short_cases. exact_arith. cbv zeta.
  test_false (Qle_bool 0 (position self)).
  test_false
    (Qltb (current_balance self) (Qabs (position self) * price * (1 + fee self))).
  cbn. eexists; eexists. by_reading.
Qed.

(** C4. With a long position, [close_long] succeeds; afterwards the
    balance has increased by exactly [revenue = size * price * (1 - fee)],
    the recorded pnl is [revenue - size * entry_price], size and entry
    price are both 0, and exactly one trade record was appended. *)
Theorem close_long_succeeds (self : Backtester Q) (ts : timestamp) (price : Q) :
  0 < position self ->
  exists (self' : Backtester Q) (t : trade_info Q),
    close_long ts price self = (Returned true, self') /\
    current_balance self'
    = current_balance self + position self * price * (1 - fee self) /\
    pnl_usdt t
    = position self * price * (1 - fee self) - position self * entry_price self /\
    position self' = 0 /\
    entry_price self' = 0 /\
    trade_log self' = trade_log self ++ [t] /\
    equity_log self' = equity_log self.
Proof.
  intros Hlong.
  rewrite close_long_cases. exact_arith. cbv zeta.
  test_false (Qle_bool (position self) 0).
  cbn. eexists; eexists. by_reading.
Qed.


(** The flat invariant in exact arithmetic. With a fee in [0, 1) and
    positive prices, after every operation of every sequence of the four
    order operations on a newly constructed engine, position size and
    entry price are zero together or non-zero together, and a non-zero
    size has a strictly positive entry price. On binary64 the first half
    fails ([zero_size_at_infinite_price]); what remains is
    [entry_price_follows_size]. *)
Theorem flat_invariant_holds (candles : list (candle Q)) (balance f : Q)
    (os : list (order Q)) (n : nat) :
  valid_fee f ->
  Forall (fun o => 0 < order_price o) os ->
  flat_invariant (snd (run_orders (firstn n os) (init candles balance f))).
Proof.
  intros Hfee Hprices.
  apply (run_orders_invariant flat_invariant).
  - intros o s Hin Hf Hs. apply apply_order_flat_invariant; try assumption.
    apply (positive_prices_firstn n) in Hprices.
    rewrite Forall_forall in Hprices. apply Hprices. exact Hin.
  - exact Hfee.
  - unfold flat_invariant. cbn.
    split; [split; reflexivity | intros H0; exfalso; apply H0; reflexivity].
Qed.

(** C7, as amended. In any arithmetic, [run_backtest] adds to the equity
    log one sample for each candle whose callback returned, in order, and
    nothing else, whether or not an order executed; the sample carries the
    candle's timestamp and, read on the engine as the callback left it,
    is balance + position size x close price when the size is not zero and
    the balance alone when it is. Where a division by zero does not raise
    (the numpy.float64 prices of the frame), and in any case unless a
    callback raised it, that is exactly one sample per candle. *)
Theorem one_equity_sample_per_candle (num : Type) (AR : Arith num) (S : Type)
    (strat : strategy num S) (st : S) (self : Backtester num) :
  exists samples : list (equity_sample num),
    equity_log (snd (run_backtest strat st self)) = equity_log self ++ samples /\
    Forall2 (fun rs e => sample_as_logged (fst rs) (snd rs) e)
      (combine (data self) (callback_states strat st (data self) self))
      samples /\
    (zero_division_raises = false \/
     fst (run_backtest strat st self) <> Raised ZeroDivisionError ->
     List.length samples = List.length (data self)).
Proof.
  exists (map sample_after
            (combine (data self) (callback_states strat st (data self) self))).
  pose proof (run_candles_equity_log strat (data self) st self) as Hlog.
  pose proof (fun st' => @callback_states_length _ _ _ strat (data self) st st' self)
    as Hlen.
  pose proof (@run_candles_raises _ _ _ strat (data self) st self) as Hraise.
  pose proof (fun H => @run_candles_returns _ _ _ strat (data self) H st self)
    as Hnumpy.
  rewrite run_backtest_unfold.
  assert (Hsamples :
    Forall2 (fun rs e => sample_as_logged (fst rs) (snd rs) e)
      (combine (data self) (callback_states strat st (data self) self))
      (map sample_after
         (combine (data self) (callback_states strat st (data self) self)))).
  { clear. induction (combine (data self)
                        (callback_states strat st (data self) self))
      as [|rs l IH]; constructor; [apply sample_after_as_logged | exact IH]. }
  destruct (run_candles strat st (data self) self) as [[st'|e] self'];
    cbn [fst snd] in *.
  - split; [|split; [exact Hsamples|]].
    + destruct (rev (data self')); exact Hlog.
    + intros _. rewrite length_map, length_combine, (Hlen st' eq_refl).
      apply Nat.min_id.
  - split; [exact Hlog | split; [exact Hsamples|]].
    intros [Hflag|Hne]; exfalso.
    + destruct (Hnumpy Hflag) as (st1 & s1 & H1). discriminate H1.
    + apply Hne. rewrite (Hraise self' e eq_refl). reflexivity.
Qed.

(** What a strategy keeps to itself does not reach the engine. A strategy
    whose decisions are a function of the candle and of what the accessors
    and the orders hand back, and not of anything else it holds, produces
    from equal initial configurations (the same candles, initial balance
    and fee) the same trade log, equity log, final balance and position,
    and the same outcome, whatever it held at the start. (That the engine
    itself is a function of its inputs needs no proof here.) *)
Theorem run_backtest_deterministic (num : Type) (AR : Arith num) (S : Type)
    (strat : strategy num S) (candles : list (candle num))
    (balance f : num) (st1 st2 : S) :
  (forall st st' row, same_decisions (strat st row) (strat st' row)) ->
  let run1 := run_backtest strat st1 (init candles balance f) in
  let run2 := run_backtest strat st2 (init candles balance f) in
  trade_log (snd run1) = trade_log (snd run2) /\
  equity_log (snd run1) = equity_log (snd run2) /\
  current_balance (snd run1) = current_balance (snd run2) /\
  position (snd run1) = position (snd run2) /\
  forget run1 = forget run2.
Proof.
  intros Hsame run1 run2.
  assert (H : forget run1 = forget run2)
    by (apply same_decisions_run_backtest; exact Hsame).
  assert (Hs : snd run1 = snd run2).
  { destruct run1 as [[r1|e1] s1], run2 as [[r2|e2] s2]; cbn in H;
      inversion H; reflexivity. }
  rewrite Hs. repeat split. exact H.
Qed.

(** C8, on the code as it is. With balance 2^20, fee f = 2^-10 and price
    1, a round trip with all of the balance has notional 2^20, so that
    2 * f * notional = 2048. The short round trip records a pnl of -2046;
    the long round trip records -1023, one fee and not two, while the
    balance it leaves is 2047 lower. *)
Theorem long_round_trip_records_one_fee :
  (2 * fee fee_engine * (current_balance fee_engine * 1) = 2048)%float /\
  (exists self',
     short_round_trip 1%Z 1%float 1%float fee_engine = (Returned true, self') /\
     pnl_log self' = [0; -2046]%float) /\
  (exists self',
     long_round_trip 1%Z 1%float 1%float fee_engine = (Returned true, self') /\
     pnl_log self' = [0; -1023]%float /\
     (current_balance self' - current_balance fee_engine = -2047)%float).
Proof.
  split; [vm_compute; reflexivity|].
  split; eexists; vm_compute; repeat split.
Qed.

(** C9, on the code as it is. The reference policy, entering with all of
    a balance of 10 at no fee, is short 10 coins after the first candle
    with a balance of 20. On the second candle buying back costs 30:
    [close_short] hands back [False] and changes nothing, exactly as the
    ordinary rejection of [close_long] does on the same engine. The loop
    does not stop there: the run returns with a sample for each of the
    three candles and the short still open. *)
Theorem fatal_close_short_does_not_halt :
  position squeeze_engine_short = (-10)%float /\
  current_balance squeeze_engine_short = 20%float /\
  PrimFloat.ltb (current_balance squeeze_engine_short)
    (PrimFloat.abs (position squeeze_engine_short) * 3
     * (1 + fee squeeze_engine_short))%float = true /\
  close_short 2%Z 3%float squeeze_engine_short
  = (Returned false, squeeze_engine_short) /\
  close_long 2%Z 3%float squeeze_engine_short
  = (Returned false, squeeze_engine_short) /\
  (exists self',
     run_backtest (Strategy_on_candle 1%float) tt squeeze_engine
     = (Returned tt, self') /\
     map (fun e => (e_timestamp e, equity e)) (equity_log self')
     = [(1%Z, 10%float); (2%Z, (-10)%float); (3%Z, 0%float)] /\
     map (fun t => t_type t) (trade_log self') = ["SELL_SHORT"%string] /\
     position self' = (-10)%float).
Proof.
  repeat (split; [vm_compute; reflexivity|]).
  eexists. vm_compute. repeat split.
Qed.




(** C7, refuted on binary64. On a frame whose only row has no prices,
    read with numpy.float64 arithmetic, the run of the reference policy
    returns with one sample, of equity 10000, the balance; balance +
    position size x close price is not a number. *)
Lemma flat_sample_is_the_balance :
  let run := @run_backtest float numpy_Arith unit
               (@Strategy_on_candle float numpy_Arith 1%float) tt
               (@init float numpy_Arith missing_candles 10000%float 0%float) in
  fst run = Returned tt /\
  map (fun e => equity e) (equity_log (snd run)) = [10000%float] /\
  is_nan (current_balance (snd run)
          + position (snd run) * PrimFloat.nan)%float = true.
Proof.
  vm_compute. repeat split.
Qed.

(** ** The theorems at concrete inputs *)

Lemma rejected_order_is_noop_witness :
  apply_order (OPEN_LONG 7%Z 100 (1 # 2)) (assign (init [] 10000 0) 0 3 90)
  = (Returned false, assign (init [] 10000 0) 0 3 90).
Proof.
  apply (@rejected_order_is_noop (assign (init [] 10000 0) 0 3 90)
           (OPEN_LONG 7%Z 100 (1 # 2))).
  apply rej_open_long_in_position. cbn. intros H. discriminate H.
Defined.

Lemma open_long_succeeds_witness :
  exists (self' : Backtester Q) (t : trade_info Q),
    open_long 1%Z 100 1 (init [] 10000 0) = (Returned true, self') /\
    position self' = (10000 * 1 / 100) * (1 - 0) /\
    current_balance self' = 10000 - 10000 * 1 /\
    entry_price self' = 100 /\
    trade_log self' = [] ++ [t] /\
    pnl_usdt t = 0 /\
    equity_log self' = [].
Proof.
  apply (@open_long_succeeds (init [] 10000 0) 1%Z 100 1); cbn.
  - reflexivity.
  - split; [reflexivity | discriminate].
  - discriminate.
  - reflexivity.
  - reflexivity.
Defined.

Lemma close_short_succeeds_witness :
  exists (self' : Backtester Q) (t : trade_info Q),
    close_short 2%Z 40 (assign (init [] 10000 0) 15000 (- (100)) 50)
    = (Returned true, self') /\
    current_balance self' = 15000 - Qabs (- (100)) * 40 * (1 + 0) /\
    pnl_usdt t = Qabs (- (100)) * 50 * (1 - 0) - Qabs (- (100)) * 40 * (1 + 0) /\
    position self' = 0 /\
    entry_price self' = 0 /\
    trade_log self' = [] ++ [t] /\
    equity_log self' = [].
Proof.
  apply (@close_short_succeeds (assign (init [] 10000 0) 15000 (- (100)) 50)
           2%Z 40); cbn.
  - reflexivity.
  - discriminate.
Defined.

Lemma close_long_succeeds_witness :
  exists (self' : Backtester Q) (t : trade_info Q),
    close_long 2%Z 110 (assign (init [] 10000 0) 0 100 100)
    = (Returned true, self') /\
    current_balance self' = 0 + 100 * 110 * (1 - 0) /\
    pnl_usdt t = 100 * 110 * (1 - 0) - 100 * 100 /\
    position self' = 0 /\
    entry_price self' = 0 /\
    trade_log self' = [] ++ [t] /\
    equity_log self' = [].
Proof.
  apply (@close_long_succeeds (assign (init [] 10000 0) 0 100 100) 2%Z 110); cbn.
  reflexivity.
Defined.


Lemma flat_invariant_holds_witness :
  flat_invariant
    (snd (run_orders
            (firstn 1 [OPEN_SHORT 1%Z 50 (1 # 2); CLOSE_SHORT 2%Z 40])
            (init [] 10000 (1 # 1000)))).
Proof.
  apply (@flat_invariant_holds [] 10000 (1 # 1000)
           [OPEN_SHORT 1%Z 50 (1 # 2); CLOSE_SHORT 2%Z 40] 1%nat).
  - split; cbn; [discriminate | reflexivity].
  - repeat constructor.
Defined.

Lemma run_backtest_deterministic_witness :
  let row := {| c_timestamp := 1%Z; c_open := 90; c_high := 110;
                c_low := 90; c_close := 100; c_volume := 1 |} in
  let run1 := run_backtest counting_policy 0%nat (init [row; row] 10000 0) in
  let run2 := run_backtest counting_policy 5%nat (init [row; row] 10000 0) in
  trade_log (snd run1) = trade_log (snd run2) /\
  equity_log (snd run1) = equity_log (snd run2) /\
  current_balance (snd run1) = current_balance (snd run2) /\
  position (snd run1) = position (snd run2) /\
  forget run1 = forget run2.
Proof.
  intros row.
  apply (@run_backtest_deterministic Q Q_Arith nat counting_policy
           [row; row] 10000 0 0%nat 5%nat).
  intros st st' r. unfold counting_policy. constructor. intros x.
  destruct (String.eqb x "NONE"); constructor; intros b; constructor.
Defined.


End Claims.

(** ** Further properties of the engine, in exact arithmetic *)

Section ExactProperties.

Local Open Scope Q_scope.

Ltac order_tests :=
  rewrite ?open_long_cases, ?close_long_cases, ?open_short_cases,
    ?close_short_cases;
  exact_arith; cbv zeta; split_tests; cbn [negb andb orb].

(** X1. From a flat position, with a sizing fraction in (0, 1], a notional
    of at least 5 and a price that is not zero, [open_short] succeeds:
    the position becomes minus [(balance * fraction / price) * (1 - fee)],
    the balance grows by [balance * fraction * (1 - fee)], the entry price
    is the price, and one SELL_SHORT record of pnl 0 is appended. It does
    not ask for a positive balance: the notional test implies it. *)
Theorem open_short_succeeds (self : Backtester Q) (ts : timestamp) (price pct : Q) :
  position self == 0 ->
  0 < pct /\ pct <= 1 ->
  5 <= current_balance self * pct ->
  ~ price == 0 ->
  exists (self' : Backtester Q) (t : trade_info Q),
    open_short ts price pct self = (Returned true, self') /\
    position self' = - ((current_balance self * pct / price) * (1 - fee self)) /\
    current_balance self'
    = current_balance self + current_balance self * pct * (1 - fee self) /\
    entry_price self' = price /\
    trade_log self' = trade_log self ++ [t] /\
    t_type t = "SELL_SHORT"%string /\
    pnl_usdt t = 0 /\
    equity_log self' = equity_log self.
Proof.
  intros Hflat [Hpct0 Hpct1] Hmin Hprice.
  rewrite open_short_cases. exact_arith.
  test_false (Qltb (position self) 0).
  test_false (Qltb 0 (position self)).
  test_true (Qltb 0 pct).
  test_true (Qle_bool pct 1).
  test_false (Qltb (current_balance self * pct) 5).
  test_false (Qeq_bool price 0).
  cbn. eexists; eexists. by_reading.
Qed.

(** X2. An order returns [False] only for one of the rejection reasons:
    there is no other way to be turned down. *)
Theorem false_only_when_rejected (self : Backtester Q) (o : order Q) :
  fst (apply_order o self) = Returned false -> rejected self o.
Proof.
  destruct o; cbn [apply_order]; order_tests; cbn [fst]; intros H;
    try discriminate H;
    solve [ constructor;
            first [ lra | intros H0; lra | intros [H0 H1]; lra ] ].
Qed.

(** Between Python floats, in exact arithmetic: an order raises exactly
    when it is an open at price zero that no rejection reason stops. What
    it raises is [ZeroDivisionError], and the engine is left as it was. *)
Lemma zero_price_open_raises (self : Backtester Q) (o : order Q) :
  (fst (apply_order o self) = Raised ZeroDivisionError <->
   is_open o = true /\ order_price o == 0 /\ ~ rejected self o) /\
  (forall e, fst (apply_order o self) = Raised e ->
             e = ZeroDivisionError /\ snd (apply_order o self) = self).
Proof.
  split.
  - split.
    + intros H. repeat split.
      * destruct o; cbn [apply_order] in H; [reflexivity| |reflexivity|].
        -- rewrite close_long_cases in H. exact_arith.
           destruct (Qle_bool (position self) 0); discriminate H.
        -- rewrite close_short_cases in H. exact_arith. cbv zeta in H.
           destruct (_ || _); discriminate H.
      * destruct o; cbn [apply_order order_price] in *; revert H; order_tests;
          cbn [fst]; intros H; try discriminate H; assumption.
      * intros Hrej. revert H. destruct Hrej; cbn [apply_order]; order_tests;
          cbn [fst]; intros Hraised; try discriminate Hraised; exfalso;
          first [ lra | nra
                | match goal with H0 : ~ _ |- _ => apply H0; try split; lra end ].
    + intros (Hopen & Hprice & Hrej).
      destruct o; cbn [is_open] in Hopen; try discriminate Hopen;
        cbn [apply_order order_price] in *; order_tests; cbn [fst];
        try reflexivity; try contradiction; exfalso; apply Hrej;
        solve [ constructor;
                first [ lra | intros H0; lra | intros [H0 H1]; lra ] ].
  - intros e H.
    destruct (apply_order o self) as [r self'] eqn:E. cbn [fst snd] in *. subst r.
    split.
    + destruct o; cbn [apply_order] in E;
        unfold open_long, close_long, open_short, close_short in E;
        eapply (@execute_order_raises Q Q_Arith); exact E.
    + eapply (@apply_order_unchanged Q Q_Arith); [exact E | discriminate].
Qed.

End ExactProperties.

(** ** Further properties of the engine, in any arithmetic *)

Section EngineProperties.

Context {num : Type} {AR : Arith num}.
Local Open Scope string_scope.
Local Open Scope list_scope.
Local Open Scope num_scope.

Local Abbreviation state := (Backtester num).

Ltac all_branches :=
  unfold _execute_order, py_div, bind, get, put, ret, raise, trade_log_append;
  cbn;
  repeat match goal with
  | |- context [if ?b then _ else _] => destruct b
  end.

(** A property of the engine that every order and every equity sample
    keeps is kept by callbacks, by the loop and by the whole run, whatever
    the strategy. *)
Section Preservation.

Variable P : state -> Prop.
Hypothesis P_order : forall order_type price ts pct self,
  P self -> P (snd (_execute_order order_type price ts pct self)).
Hypothesis P_sample : forall e self,
  P self -> P (snd (equity_log_append e self)).

Lemma bind_preserves {X Y : Type} (m : M num X) (k : X -> M num Y) (self : state) :
  P (snd (m self)) -> (forall x s, P s -> P (snd (k x s))) ->
  P (snd (bind m k self)).
Proof.
  intros Hm Hk. unfold bind. destruct (m self) as [[x|e] s]; cbn [snd] in *.
  - apply Hk, Hm.
  - exact Hm.
Qed.

Lemma run_prog_preserves {R : Type} (p : prog num R) :
  forall self, P self -> P (snd (run_prog p self)).
Proof.
  induction p as [r|ts price pct k IH|ts price k IH|ts price pct k IH
                  |ts price k IH|k IH|k IH|k IH|k IH];
    intros self HP; cbn [run_prog];
    try (apply bind_preserves;
         [ first [ apply P_order, HP | exact HP ] | intros x s Hs; apply IH, Hs ]).
  exact HP.
Qed.

Lemma run_candles_preserves {S : Type} (strat : strategy num S)
    (rows : list (candle num)) :
  forall st self, P self -> P (snd (run_candles strat st rows self)).
Proof.
  induction rows as [|row rows IH]; intros st self HP.
  - exact HP.
  - rewrite run_candles_cons.
    pose proof (run_prog_preserves (strat st row) HP) as HP'.
    destruct (run_prog (strat st row) self) as [[st'|e] self']; cbn [snd] in *.
    + apply IH, P_sample, HP'.
    + exact HP'.
Qed.

Lemma run_backtest_preserves {S : Type} (strat : strategy num S) (st : S)
    (self : state) :
  P self -> P (snd (run_backtest strat st self)).
Proof.
  intros HP. rewrite run_backtest_unfold.
  pose proof (run_candles_preserves strat (data self) st HP) as HP'.
  destruct (run_candles strat st (data self) self) as [[st'|e] self'];
    cbn [snd] in *; [|exact HP'].
  destruct (rev (data self')); exact HP'.
Qed.

End Preservation.

(** X4. What one order does to the logs: it appends exactly one record
    to the trade log when it returns [True], dated and priced as ordered,
    and nothing otherwise; it never touches the equity log, the candles,
    the fee or the initial balance. *)
Theorem order_appends_one_record (o : order num) (self : state) :
  same_frame self (snd (apply_order o self)) /\
  (fst (apply_order o self) = Returned true ->
   exists t, trade_log (snd (apply_order o self)) = trade_log self ++ [t] /\
             t_price t = order_price o /\
             t_timestamp t
             = match o with
               | OPEN_LONG ts _ _ | CLOSE_LONG ts _
               | OPEN_SHORT ts _ _ | CLOSE_SHORT ts _ => ts
               end /\
             t_type t
             = match o with
               | OPEN_LONG _ _ _ => "BUY_LONG" | CLOSE_LONG _ _ => "CLOSE_LONG"
               | OPEN_SHORT _ _ _ => "SELL_SHORT" | CLOSE_SHORT _ _ => "CLOSE_SHORT"
               end) /\
  (fst (apply_order o self) <> Returned true ->
   trade_log (snd (apply_order o self)) = trade_log self).
Proof.
  split; [apply apply_order_frame|].
  destruct o; cbn [apply_order order_price];
    unfold open_long, close_long, open_short, close_short;
    all_branches; cbn; split; intros H;
    try discriminate H; try reflexivity; try (exfalso; apply H; reflexivity);
    eexists; repeat split.
Qed.

Lemma execute_order_well_formed (order_type : string) (price : num) ts pct
    (self : state) :
  Forall well_formed_record (trade_log self) /\ log_up_to_date self ->
  Forall well_formed_record
    (trade_log (snd (_execute_order order_type price ts pct self))) /\
  log_up_to_date (snd (_execute_order order_type price ts pct self)).
Proof.
  intros [Hall Hlast]. unfold log_up_to_date in *.
  all_branches; cbn; try (split; assumption);
    rewrite rev_app_distr; cbn;
    (split; [apply Forall_app; split; [exact Hall|] | split; reflexivity]);
    (apply Forall_cons; [|apply Forall_nil]);
    unfold well_formed_record, type_in; cbn;
    first [ left; repeat split; reflexivity | right; repeat split; reflexivity ].
Qed.

(** X5. The bookkeeping of the trade log, in every run of every strategy
    on a new engine: each record of an open books a pnl of 0 and carries
    the coins of the position it opened, each record of a close carries no
    coins and a position of 0, and the last record shows the balance and
    the position the engine ends with. *)
Theorem trade_log_bookkeeping (S : Type) (strat : strategy num S) (st : S)
    (candles : list (candle num)) (balance f : num) :
  let final := snd (run_backtest strat st (init candles balance f)) in
  Forall well_formed_record (trade_log final) /\ log_up_to_date final.
Proof.
  cbv zeta.
  apply (run_backtest_preserves
           (fun s => Forall well_formed_record (trade_log s) /\ log_up_to_date s)).
  - intros. apply execute_order_well_formed. assumption.
  - intros e s Hs. exact Hs.
  - split; [constructor | exact I].
Qed.

(** X6. The final equity that [display_results] and [main] report is the
    last point of the equity curve: when the run returns, the last sample
    of the equity log is dated at the last candle and is the final equity
    computed at that candle's close. *)
Theorem final_equity_is_last_sample (S : Type) (strat : strategy num S)
    (st st' : S) (self final : state) :
  run_backtest strat st self = (Returned st', final) ->
  exists row rows e es,
    rev (data self) = row :: rows /\
    rev (equity_log final) = e :: es /\
    e_timestamp e = c_timestamp row /\
    equity e = final_equity final (c_close row).
Proof.
  rewrite run_backtest_unfold.
  pose proof (run_candles_preserves (fun s => data s = data self)) as Hdata.
  assert (Hloop : forall rows (s0 : S) (s : state) row0,
             run_candles strat s0 (rows ++ [row0]) s = (Returned st', final) ->
             exists e es, rev (equity_log final) = e :: es /\
                          e_timestamp e = c_timestamp row0 /\
                          equity e = final_equity final (c_close row0)).
  { induction rows as [|row rows IH]; intros s0 s row0.
    - cbn [app]. rewrite run_candles_cons.
      destruct (run_prog (strat s0 row0) s) as [[s1|e] self1];
        [|intros H; discriminate H].
      cbn. unfold ret. intros H. inversion H; subst. clear H.
      cbn [equity_log]. rewrite rev_app_distr. cbn.
      eexists; eexists. repeat split.
    - cbn [app]. rewrite run_candles_cons.
      destruct (run_prog (strat s0 row) s) as [[s1|e] self1];
        [|intros H; discriminate H].
      apply IH. }
  destruct (run_candles strat st (data self) self) as [[st1|e] self1] eqn:E;
    [|intros H; discriminate H].
  assert (Hd : data self1 = data self).
  { change self1 with (snd (Returned st1, self1)). rewrite <- E.
    apply Hdata; [| |reflexivity].
    - intros ty price ts pct s0 Hs.
      pose proof (execute_order_frame ty price ts pct s0) as (Hd0 & _).
      congruence.
    - intros e s0 Hs. exact Hs. }
  rewrite Hd.
  destruct (rev (data self)) as [|row rows] eqn:Erev; intros H;
    [discriminate H|]. inversion H; subst. clear H.
  assert (Hrows : data self = rev rows ++ [row]).
  { rewrite <- (rev_involutive (data self)), Erev. reflexivity. }
  rewrite Hrows in E. destruct (Hloop _ _ _ _ E) as (e & es & He & Hts & Heq).
  exists row, rows, e, es. repeat split; assumption.
Qed.

(** X3. In any arithmetic, an order raises only [ZeroDivisionError], only
    when it is an open, long or short, at price zero, and only where a
    division by zero raises at all: between Python floats, and not with
    the numpy.float64 prices of the frame. The engine is then left
    exactly as it was. *)
Theorem raises_only_on_zero_price (o : order num) (self : state) (e : exn) :
  fst (apply_order o self) = Raised e ->
  zero_division_raises = true /\
  is_open o = true /\
  (order_price o =? zero) = true /\
  e = ZeroDivisionError /\
  snd (apply_order o self) = self.
Proof.
  destruct o; cbn [apply_order order_price is_open];
    rewrite ?open_long_cases, ?close_long_cases, ?open_short_cases,
      ?close_short_cases;
    cbv zeta;
    repeat match goal with
    | |- context [if ?b then _ else _] =>
        let E := fresh "E" in destruct b eqn:E
    end; cbn [fst snd]; intros H; try discriminate H;
    inversion H; subst;
    match goal with
    | E : _ && _ = true |- _ => apply andb_true_iff in E; destruct E as [E1 E2]
    end;
    repeat split; assumption.
Qed.

End EngineProperties.

(** ** Matching of opens and closes, in exact arithmetic *)

Section Pairing.

Local Open Scope Q_scope.

Lemma trade_types_append (self : Backtester Q) (b p e : Q) (t : trade_info Q) :
  trade_types (snd (trade_log_append t (assign self b p e)))
  = trade_types self ++ [t_type t].
Proof.
  unfold trade_types. cbn. rewrite map_app. reflexivity.
Qed.

Lemma apply_order_log_matches (self : Backtester Q) (o : order Q) :
  valid_fee (fee self) -> 0 < order_price o ->
  log_matches_position self -> log_matches_position (snd (apply_order o self)).
Proof.
  intros [Hf0 Hf1] Hp Hinv.
  destruct o; cbn [apply_order order_price] in *;
    rewrite ?open_long_cases, ?close_long_cases, ?open_short_cases,
      ?close_short_cases;
    exact_arith; cbv zeta; split_tests; cbn [negb andb orb snd];
    try exact Hinv; try (exfalso; lra);
    unfold log_matches_position; rewrite trade_types_append;
    cbn [snd trade_log_append assign position t_type];
    destruct Hinv as [[Hz Hcp]|[[Hpos (l & Hl & Hcp)]|[Hneg (l & Hl & Hcp)]]];
    try (exfalso; lra).
  - right; left. split.
    + match goal with
      | H : 5 <= _ |- _ => exact (coins_positive H Hp Hf1)
      end.
    + exists (trade_types self). split; [reflexivity | exact Hcp].
  - left. split; [reflexivity|].
    rewrite Hl, <- app_assoc. apply cp_long. exact Hcp.
  - right; right. split.
    + match goal with
      | H : 5 <= _ |- _ => pose proof (coins_positive H Hp Hf1)
      end. lra.
    + exists (trade_types self). split; [reflexivity | exact Hcp].
  - left. split; [reflexivity|].
    rewrite Hl, <- app_assoc. apply cp_short. exact Hcp.
Qed.

(** In exact arithmetic only (on binary64 a position that is not a number
    lets two opens follow each other): with a fee in [0, 1) and positive
    prices, after every operation
    of every sequence of orders on a new engine the trade log is made of
    matched pairs, an open followed by the close of the same side, with
    one more open at the end exactly when a position is held: a BUY_LONG
    when the engine is long, a SELL_SHORT when it is short. *)
Theorem trade_log_pairs_opens_and_closes (candles : list (candle Q))
    (balance f : Q) (os : list (order Q)) (n : nat) :
  valid_fee f ->
  Forall (fun o => 0 < order_price o) os ->
  log_matches_position (snd (run_orders (firstn n os) (init candles balance f))).
Proof.
  intros Hfee Hprices.
  apply (run_orders_invariant log_matches_position).
  - intros o s Hin Hf Hs. apply apply_order_log_matches; try assumption.
    apply (positive_prices_firstn n) in Hprices.
    rewrite Forall_forall in Hprices. apply Hprices. exact Hin.
  - exact Hfee.
  - left. split; [reflexivity | apply cp_nil].
Qed.

End Pairing.

(** ** Accounting, in exact arithmetic *)

Section Accounting.

Local Open Scope Q_scope.

Lemma closed_pnl_append (self : Backtester Q) (b p e : Q) (t : trade_info Q) :
  closed_pnl (snd (trade_log_append t (assign self b p e)))
  = if type_in ["CLOSE_LONG"%string; "CLOSE_SHORT"%string] t
    then closed_pnl self + pnl_usdt t
    else closed_pnl self.
Proof.
  unfold closed_pnl, py_sum. cbn [snd trade_log_append assign trade_log].
  rewrite filter_app, map_app, fold_left_app. cbn [filter].
  destruct (type_in _ t); reflexivity.
Qed.

Lemma apply_order_books_balance (self : Backtester Q) (o : order Q) :
  books_balance self -> books_balance (snd (apply_order o self)).
Proof.
  intros [Hfee Hbooks].
  destruct o; cbn [apply_order];
    rewrite ?open_long_cases, ?close_long_cases, ?open_short_cases,
      ?close_short_cases;
    exact_arith; cbv zeta; split_tests; cbn [negb andb orb snd];
    try (split; assumption);
    unfold books_balance; rewrite closed_pnl_append;
    cbn [snd trade_log_append assign position current_balance entry_price fee
         initial_balance t_type pnl_usdt type_in existsb String.eqb
         Ascii.eqb Bool.eqb orb];
    (split; [exact Hfee|]).
  - assert (Hz : position self * entry_price self == 0)
      by (assert (Hp : position self == 0) by lra; rewrite Hp; ring).
    assert (Hc : current_balance self * amount_usdt_percent / price
                 * (1 - fee self) * price
                 == current_balance self * amount_usdt_percent)
      by (rewrite Hfee; field; assumption).
    rewrite Hc. lra.
  - lra.
  - assert (Hz : position self * entry_price self == 0)
      by (assert (Hp : position self == 0) by lra; rewrite Hp; ring).
    assert (Hc : - (current_balance self * amount_usdt_percent / price
                    * (1 - fee self)) * price
                 == - (current_balance self * amount_usdt_percent
                       * (1 - fee self)))
      by (field; assumption).
    rewrite Hc. lra.
  - assert (Ha : Qabs (position self) == - position self)
      by (apply Qabs_neg; lra).
    rewrite Ha, Hfee. lra.
Qed.

(** In exact arithmetic only (binary64 rounds the two sides apart).
    Without fee the books balance: after every operation of every
    sequence of orders on a new engine, the balance plus the cost basis
    of the open position (size x entry price) is the initial balance plus
    the sum of the realized pnl of the closes; so, whenever the engine is
    flat, the total profit and loss that [display_results] prints is the
    pnl of the closed trades it prints below it. *)
Theorem zero_fee_books_balance (candles : list (candle Q)) (balance : Q)
    (os : list (order Q)) (n : nat) :
  let s := snd (run_orders (firstn n os) (init candles balance 0)) in
  current_balance s + position s * entry_price s
  == initial_balance s + closed_pnl s /\
  (forall last_price, position s == 0 -> total_pnl s last_price == closed_pnl s).
Proof.
  cbv zeta.
  assert (H : books_balance
                (snd (run_orders (firstn n os) (init candles balance 0)))).
  { apply (run_orders_invariant books_balance).
    - intros o s _ _ Hs. apply apply_order_books_balance, Hs.
    - split; cbn; [discriminate | reflexivity].
    - split; [reflexivity|]. cbn. ring. }
  destruct H as [_ H]. split; [exact H|].
  intros last_price Hflat. unfold total_pnl, final_equity. exact_arith.
  assert (E : Qeq_bool (position (snd (run_orders (firstn n os)
                                         (init candles balance 0)))) 0 = true)
    by (apply Qeq_bool_iff; exact Hflat).
  rewrite E. cbn [negb].
  rewrite Hflat in H. lra.
Qed.

(** In exact arithmetic only (binary64 can round the coins bought up).
    No order creates equity: with a fee and a price that are not
    negative, the equity marked at the price of the order (balance +
    size x price) is after the order at most what it was before. *)
Theorem order_never_raises_equity (self : Backtester Q) (o : order Q) :
  0 <= fee self ->
  0 <= order_price o ->
  mark_to_market (snd (apply_order o self)) (order_price o)
  <= mark_to_market self (order_price o).
Proof.
  intros Hfee Hp.
  destruct o; cbn [apply_order order_price] in *;
    rewrite ?open_long_cases, ?close_long_cases, ?open_short_cases,
      ?close_short_cases;
    exact_arith; cbv zeta; split_tests; cbn [negb andb orb snd];
    try lra; unfold mark_to_market;
    cbn [snd trade_log_append assign position current_balance].
  - assert (Hc : current_balance self * amount_usdt_percent / price
                 * (1 - fee self) * price
                 == current_balance self * amount_usdt_percent * (1 - fee self))
      by (field; assumption).
    rewrite Hc. nra.
  - assert (0 <= position self * price) by nra. nra.
  - assert (Hc : - (current_balance self * amount_usdt_percent / price
                    * (1 - fee self)) * price
                 == - (current_balance self * amount_usdt_percent
                       * (1 - fee self)))
      by (field; assumption).
    rewrite Hc. nra.
  - assert (Ha : Qabs (position self) == - position self)
      by (apply Qabs_neg; lra).
    rewrite Ha. assert (0 <= - position self * price) by nra. nra.
Qed.

End Accounting.

(** ** The reference policy *)

Section ReferencePolicy.

Local Open Scope Q_scope.

(** What the policy does on a candle, by the position held. *)
Lemma Strategy_on_candle_cases (pct : Q) (row : candle Q) (self : Backtester Q) :
  run_prog (Strategy_on_candle pct tt row) self =
    if Qltb 0 (position self) then
      if Qltb (c_close row) (c_open row)
      then bind (close_long (c_timestamp row) (c_close row)) (fun _ => ret tt) self
      else (Returned tt, self)
    else if Qltb (position self) 0 then
      if Qltb (c_open row) (c_close row)
      then bind (close_short (c_timestamp row) (c_close row)) (fun _ => ret tt) self
      else (Returned tt, self)
    else
      if Qltb (c_open row) (c_close row)
      then bind (open_long (c_timestamp row) (c_close row) pct) (fun _ => ret tt) self
      else if Qltb (c_close row) (c_open row)
      then bind (open_short (c_timestamp row) (c_close row) pct) (fun _ => ret tt) self
      else (Returned tt, self).
Proof.
  unfold Strategy_on_candle. cbn [run_prog]. unfold bind at 1, get.
  unfold get_position_type. exact_arith.
  destruct (Qltb 0 (position self)); [|destruct (Qltb (position self) 0)];
    cbn [String.eqb Ascii.eqb Bool.eqb andb];
    repeat match goal with
    | |- context [if Qltb ?x ?y then _ else _] => destruct (Qltb x y)
    end; reflexivity.
Qed.

Lemma apply_order_returns (self : Backtester Q) (o : order Q) :
  ~ order_price o == 0 ->
  exists b self', apply_order o self = (Returned b, self').
Proof.
  intros Hp.
  destruct o; cbn [apply_order order_price] in *;
    rewrite ?open_long_cases, ?close_long_cases, ?open_short_cases,
      ?close_short_cases;
    exact_arith; cbv zeta; split_tests; cbn [negb andb orb];
    try contradiction; eexists; eexists; reflexivity.
Qed.

Lemma Strategy_on_candle_returns (pct : Q) (row : candle Q) (self : Backtester Q) :
  ~ c_close row == 0 ->
  exists self', run_prog (Strategy_on_candle pct tt row) self = (Returned tt, self').
Proof.
  intros Hp. rewrite Strategy_on_candle_cases.
  pose proof (apply_order_returns self (CLOSE_LONG (c_timestamp row) (c_close row)) Hp)
    as (b1 & s1 & H1).
  pose proof (apply_order_returns self (CLOSE_SHORT (c_timestamp row) (c_close row)) Hp)
    as (b2 & s2 & H2).
  pose proof (apply_order_returns self (OPEN_LONG (c_timestamp row) (c_close row) pct) Hp)
    as (b3 & s3 & H3).
  pose proof (apply_order_returns self (OPEN_SHORT (c_timestamp row) (c_close row) pct) Hp)
    as (b4 & s4 & H4).
  cbn [apply_order] in *. unfold bind, ret. rewrite H1, H2, H3, H4.
  repeat match goal with
  | |- context [if Qltb ?x ?y then _ else _] => destruct (Qltb x y)
  end; eexists; reflexivity.
Qed.

(** X10. The reference policy is never long after a bearish candle: with
    a fee in [0, 1), after [on_candle] on a candle that closes below its
    open at a positive price, the position type is NONE or SHORT, whatever
    the engine held before. (After a bullish candle it can still be short:
    the close of a short can be refused.) *)
Theorem never_long_after_bearish_candle (pct : Q) (row : candle Q)
    (self : Backtester Q) :
  valid_fee (fee self) ->
  0 < c_close row ->
  c_close row < c_open row ->
  let after := snd (run_prog (Strategy_on_candle pct tt row) self) in
  get_position_type after = "NONE"%string \/
  get_position_type after = "SHORT"%string.
Proof.
  cbv zeta.
  intros [Hf0 Hf1] Hclose Hbear.
  rewrite Strategy_on_candle_cases.
  test_true (Qltb (c_close row) (c_open row)).
  test_false (Qltb (c_open row) (c_close row)).
  unfold bind, ret.
  rewrite close_long_cases, open_short_cases. exact_arith. cbv zeta.
  split_tests; cbn [negb andb orb]; cbv beta iota zeta delta [snd];
    unfold get_position_type; exact_arith;
    cbn [snd trade_log_append assign position];
    split_tests;
    first [ left; reflexivity | right; reflexivity | idtac ];
    exfalso; try lra;
    match goal with
    | H : 5 <= _ |- _ => pose proof (coins_positive H Hclose Hf1)
    end; lra.
Qed.

(** X11. On candles that are not empty and whose closes are not zero, a
    run of the reference policy returns: it raises neither in a callback
    nor in [display_results]. *)
Theorem reference_run_returns (pct : Q) (self : Backtester Q) :
  data self <> [] ->
  Forall (fun row => ~ c_close row == 0) (data self) ->
  exists final, run_backtest (Strategy_on_candle pct) tt self = (Returned tt, final).
Proof.
  intros Hne Hcloses. rewrite run_backtest_unfold.
  assert (Hloop : forall rows s,
             Forall (fun row => ~ c_close row == 0) rows ->
             exists s', run_candles (Strategy_on_candle pct) tt rows s
                        = (Returned tt, s')).
  { induction rows as [|row rows IH]; intros s Hrows.
    - eexists. reflexivity.
    - inversion Hrows as [|? ? Hrow Hrest]; subst.
      rewrite run_candles_cons.
      destruct (@Strategy_on_candle_returns pct row s Hrow) as [s1 ->].
      apply IH, Hrest. }
  destruct (Hloop (data self) self Hcloses) as [s' Hs'].
  assert (Hd : data s' = data self).
  { change s' with (snd (Returned tt, s')). rewrite <- Hs'.
    apply (run_candles_preserves (fun s => data s = data self));
      [| |reflexivity].
    - intros ty price ts p s0 Hs0.
      pose proof (execute_order_frame ty price ts p s0) as (Hd0 & _).
      congruence.
    - intros e s0 Hs0. exact Hs0. }
  rewrite Hs', Hd.
  destruct (rev (data self)) as [|row rows] eqn:E.
  - exfalso. apply Hne. rewrite <- (rev_involutive (data self)), E. reflexivity.
  - eexists. reflexivity.
Qed.

End ReferencePolicy.

(** ** The counts of the metrics table *)

Section Metrics.

Local Open Scope Q_scope.

Let opens : list string := ["BUY_LONG"%string; "SELL_SHORT"%string].
Let closes : list string := ["CLOSE_LONG"%string; "CLOSE_SHORT"%string].

Lemma decided_at_most_closed (l : list (trade_info Q)) :
  (List.length (filter (fun t => type_in closes t && Qltb 0 (pnl_usdt t)) l)
   + List.length (filter (fun t => type_in closes t && Qltb (pnl_usdt t) 0) l)
   <= List.length (filter (type_in closes) l))%nat.
Proof.
  induction l as [|t l IH]; [apply Nat.le_refl|].
  cbn [filter]. destruct (type_in closes t); cbn [andb]; [|exact IH].
  destruct (Qltb 0 (pnl_usdt t)) eqn:E1, (Qltb (pnl_usdt t) 0) eqn:E2;
    cbn [List.length]; try lia.
  apply Qltb_lt in E1. apply Qltb_lt in E2. exfalso. lra.
Qed.

Lemma count_by_type (tys : list string) (l : list (trade_info Q)) :
  List.length (filter (type_in tys) l)
  = List.length (filter (fun ty => existsb (String.eqb ty) tys)
                   (map (fun t => t_type t) l)).
Proof.
  induction l as [|t l IH]; [reflexivity|].
  cbn [filter map]. unfold type_in at 1.
  destruct (existsb (String.eqb (t_type t)) tys); cbn [List.length]; congruence.
Qed.

Lemma closed_pairs_balanced (l : list string) :
  closed_pairs l ->
  List.length (filter (fun ty => existsb (String.eqb ty) closes) l)
  = List.length (filter (fun ty => existsb (String.eqb ty) opens) l).
Proof.
  induction 1 as [|l H IH|l H IH]; [reflexivity| |];
    rewrite !filter_app, !length_app, IH; reflexivity.
Qed.

Lemma closes_at_most_opens (self : Backtester Q) :
  log_matches_position self ->
  (List.length (filter (type_in closes) (trade_log self)) <= total_trades self)%nat.
Proof.
  unfold total_trades. rewrite !count_by_type. fold (trade_types self).
  intros [[_ Hcp]|[[_ (l & -> & Hcp)]|[_ (l & -> & Hcp)]]].
  - rewrite (closed_pairs_balanced Hcp). apply Nat.le_refl.
  - rewrite !filter_app, !length_app, (closed_pairs_balanced Hcp). cbn. lia.
  - rewrite !filter_app, !length_app, (closed_pairs_balanced Hcp). cbn. lia.
Qed.

(** X12. With a fee in [0, 1) and positive prices, after any sequence of
    orders on a new engine the metrics of [main] never count more decided
    trades than trades opened: winning trades plus losing trades is at
    most [total_trades]. *)
Theorem decided_trades_at_most_opened (candles : list (candle Q))
    (balance f : Q) (os : list (order Q)) :
  valid_fee f ->
  Forall (fun o => 0 < order_price o) os ->
  let s := snd (run_orders os (init candles balance f)) in
  (winning_trades s + losing_trades s <= total_trades s)%nat.
Proof.
  intros Hfee Hprices. cbv zeta.
  assert (H : log_matches_position (snd (run_orders os (init candles balance f)))).
  { apply (run_orders_invariant log_matches_position).
    - intros o s Hin Hf Hs. apply apply_order_log_matches; try assumption.
      rewrite Forall_forall in Hprices. apply Hprices. exact Hin.
    - exact Hfee.
    - left. split; [reflexivity | apply cp_nil]. }
  apply closes_at_most_opens in H.
  unfold winning_trades, losing_trades. exact_arith.
  eapply Nat.le_trans; [apply decided_at_most_closed | exact H].
Qed.

End Metrics.

(** ** Closes after opens, in any arithmetic *)

Section CloseAfterOpen.

Context {num : Type} {AR : Arith num}.
Local Open Scope string_scope.
Local Open Scope list_scope.
Local Open Scope num_scope.

Local Abbreviation state := (Backtester num).

Lemma close_type_not_open (ty : string) :
  is_close_type ty = true -> is_open_type ty = false.
Proof.
  unfold is_close_type, is_open_type. cbn [existsb]. rewrite !orb_false_r.
  intros H. apply orb_true_iff in H.
  destruct H as [H|H]; apply String.eqb_eq in H; subst; reflexivity.
Qed.

Lemma closes_follow_opens_snoc (l : list string) (ty : string) :
  forall a,
    closes_follow_opens_from a (l ++ [ty])
    = closes_follow_opens_from a l
      && (if is_close_type ty then ends_on_open a l else true).
Proof.
  induction l as [|ty0 l IH]; intros a; cbn [app closes_follow_opens_from ends_on_open].
  - destruct (is_close_type ty); [rewrite andb_true_r|]; reflexivity.
  - destruct (is_close_type ty0) eqn:E; rewrite IH.
    + rewrite (close_type_not_open _ E), andb_assoc. reflexivity.
    + reflexivity.
Qed.

Lemma ends_on_open_snoc (l : list string) (ty : string) :
  forall a, ends_on_open a (l ++ [ty]) = is_open_type ty.
Proof.
  induction l as [|ty0 l IH]; intros a; cbn [app ends_on_open];
    [reflexivity | apply IH].
Qed.

Lemma execute_order_log_in_order (order_type : string) (price : num) ts pct
    (self : state) :
  (zero <=? zero) = true ->
  log_in_order self ->
  log_in_order (snd (_execute_order order_type price ts pct self)).
Proof.
  intros Hzero [Hlog Hflat].
  unfold _execute_order, py_div, bind, get, put, ret, raise, trade_log_append.
  cbn.
  repeat match goal with
  | |- context [if ?b then _ else _] =>
      let E := fresh "E" in destruct b eqn:E
  end; cbn [snd]; try (split; assumption);
    unfold log_in_order, closes_follow_opens, trade_types in *;
    cbn [trade_log position]; rewrite map_app; cbn [map t_type];
    rewrite closes_follow_opens_snoc, ends_on_open_snoc; cbn;
    rewrite Hlog; cbn [andb];
    (split; [| intros H; first [discriminate H | reflexivity]]);
    try reflexivity;
    destruct (ends_on_open false (map (fun t => t_type t) (trade_log self)));
    try reflexivity;
    exfalso; rewrite (Hflat eq_refl) in *; congruence.
Qed.

(** X7. In any arithmetic in which 0 <= 0 holds (the rationals, binary64),
    in every run of every strategy on a new engine, whatever the prices
    and the fee, every close in the trade log comes right after an open:
    the log never starts with a close and never has two closes in a
    row. *)
Theorem closes_come_after_opens (S : Type) (strat : strategy num S) (st : S)
    (candles : list (candle num)) (balance f : num) :
  (zero <=? zero) = true ->
  closes_follow_opens
    (trade_types (snd (run_backtest strat st (init candles balance f)))) = true.
Proof.
  intros Hzero.
  apply (run_backtest_preserves log_in_order).
  - intros. apply execute_order_log_in_order; assumption.
  - intros e s Hs. exact Hs.
  - split; [reflexivity | intros _; reflexivity].
Qed.

End CloseAfterOpen.

(** ** The further properties at concrete inputs *)

Section PropertiesAtInputs.

Local Open Scope Q_scope.

Lemma open_short_succeeds_witness :
  exists (self' : Backtester Q) (t : trade_info Q),
    open_short 1%Z 50 (1 # 2) (init [] 10000 (1 # 1000)) = (Returned true, self') /\
    position self' = - ((10000 * (1 # 2) / 50) * (1 - (1 # 1000))) /\
    current_balance self' = 10000 + 10000 * (1 # 2) * (1 - (1 # 1000)) /\
    entry_price self' = 50 /\
    trade_log self' = [] ++ [t] /\
    t_type t = "SELL_SHORT"%string /\
    pnl_usdt t = 0 /\
    equity_log self' = [].
Proof.
  apply (@open_short_succeeds (init [] 10000 (1 # 1000)) 1%Z 50 (1 # 2)); cbn.
  - reflexivity.
  - split; [reflexivity | discriminate].
  - discriminate.
  - discriminate.
Defined.

Lemma false_only_when_rejected_witness :
  rejected (init [] 3 0) (OPEN_LONG 1%Z 100 1).
Proof.
  apply (@false_only_when_rejected (init [] 3 0) (OPEN_LONG 1%Z 100 1)).
  reflexivity.
Defined.

Lemma final_equity_is_last_sample_witness :
  exists row rows e es,
    rev squeeze_candles = row :: rows /\
    rev (equity_log (snd (run_backtest (Strategy_on_candle 1%float) tt
                            squeeze_engine)))
    = e :: es /\
    e_timestamp e = c_timestamp row /\
    equity e
    = final_equity (snd (run_backtest (Strategy_on_candle 1%float) tt
                           squeeze_engine)) (c_close row).
Proof.
  apply (@final_equity_is_last_sample float float_Arith unit
           (Strategy_on_candle 1%float) tt tt squeeze_engine).
  vm_compute. reflexivity.
Defined.

Lemma trade_log_pairs_opens_and_closes_witness :
  log_matches_position
    (snd (run_orders
            (firstn 3 [OPEN_LONG 1%Z 100 1; CLOSE_LONG 2%Z 110;
                       OPEN_SHORT 3%Z 110 (1 # 2)])
            (init [] 10000 (1 # 1000)))).
Proof.
  apply (@trade_log_pairs_opens_and_closes [] 10000 (1 # 1000)
           [OPEN_LONG 1%Z 100 1; CLOSE_LONG 2%Z 110; OPEN_SHORT 3%Z 110 (1 # 2)]
           3%nat).
  - split; cbn; [discriminate | reflexivity].
  - repeat constructor.
Defined.

Lemma order_never_raises_equity_witness :
  mark_to_market
    (snd (apply_order (CLOSE_LONG 2%Z 110)
            (assign (init [] 10000 (1 # 1000)) 0 100 100))) 110
  <= mark_to_market (assign (init [] 10000 (1 # 1000)) 0 100 100) 110.
Proof.
  apply (@order_never_raises_equity
           (assign (init [] 10000 (1 # 1000)) 0 100 100) (CLOSE_LONG 2%Z 110));
    cbn; discriminate.
Defined.

Lemma never_long_after_bearish_candle_witness :
  let row := {| c_timestamp := 2%Z; c_open := 100; c_high := 100;
                c_low := 90; c_close := 90; c_volume := 1 |} in
  let after :=
    snd (run_prog (Strategy_on_candle (1 # 2) tt row)
           (assign (init [] 10000 (1 # 1000)) 0 100 100)) in
  get_position_type after = "NONE"%string \/
  get_position_type after = "SHORT"%string.
Proof.
  intros row.
  apply (@never_long_after_bearish_candle (1 # 2) row
           (assign (init [] 10000 (1 # 1000)) 0 100 100)).
  - split; cbn; [discriminate | reflexivity].
  - reflexivity.
  - reflexivity.
Defined.

Lemma reference_run_returns_witness :
  let row := {| c_timestamp := 1%Z; c_open := 90; c_high := 100;
                c_low := 90; c_close := 100; c_volume := 1 |} in
  exists final,
    run_backtest (Strategy_on_candle (1 # 2)) tt (init [row] 10000 (1 # 1000))
    = (Returned tt, final).
Proof.
  intros row.
  apply (@reference_run_returns (1 # 2) (init [row] 10000 (1 # 1000))).
  - cbn. discriminate.
  - cbn. repeat constructor. cbn. discriminate.
Defined.

Lemma decided_trades_at_most_opened_witness :
  let s := snd (run_orders [OPEN_LONG 1%Z 100 1; CLOSE_LONG 2%Z 110;
                            OPEN_SHORT 3%Z 110 (1 # 2)]
                  (init [] 10000 (1 # 1000))) in
  (winning_trades s + losing_trades s <= total_trades s)%nat.
Proof.
  apply (@decided_trades_at_most_opened [] 10000 (1 # 1000)
           [OPEN_LONG 1%Z 100 1; CLOSE_LONG 2%Z 110; OPEN_SHORT 3%Z 110 (1 # 2)]).
  - split; cbn; [discriminate | reflexivity].
  - repeat constructor.
Defined.

Lemma raises_only_on_zero_price_witness :
  @zero_division_raises float float_Arith = true /\
  is_open (OPEN_LONG 1%Z 0%float 1%float) = true /\
  PrimFloat.eqb 0 0 = true /\
  ZeroDivisionError = ZeroDivisionError /\
  snd (apply_order (OPEN_LONG 1%Z 0%float 1%float) (init [] 10000%float 0%float))
  = init [] 10000%float 0%float.
Proof.
  apply (@raises_only_on_zero_price float float_Arith
           (OPEN_LONG 1%Z 0%float 1%float) (init [] 10000%float 0%float)
           ZeroDivisionError).
  vm_compute. reflexivity.
Defined.

Lemma closes_come_after_opens_witness :
  closes_follow_opens
    (trade_types (snd (run_backtest (Strategy_on_candle 1%float) tt
                         (init squeeze_candles 10%float 0%float)))) = true.
Proof.
  apply (@closes_come_after_opens float float_Arith unit
           (Strategy_on_candle 1%float) tt squeeze_candles 10%float 0%float).
  reflexivity.
Defined.

(** With numpy.float64 prices a close at zero does not stop the run: the
    reference policy opens a short of infinitely many coins, and the
    candle gets its sample. *)
Lemma zero_close_executes_with_numpy_prices :
  let run := @run_backtest float numpy_Arith unit
               (@Strategy_on_candle float numpy_Arith 1%float) tt
               (@init float numpy_Arith zero_close_candles 10000%float 0%float) in
  fst run = Returned tt /\
  trade_types (snd run) = ["SELL_SHORT"%string] /\
  position (snd run) = neg_infinity /\
  List.length (equity_log (snd run)) = 1%nat.
Proof.
  vm_compute. repeat split.
Qed.

(** The amended C6 with numpy.float64 prices: the comparisons are the
    same. *)
Lemma entry_price_follows_size_numpy (candles : list (candle float))
    (balance f : float) (os : list (order float)) (n : nat) :
  Forall (fun o => PrimFloat.ltb 0 (order_price o) = true) os ->
  @entry_price_invariant float numpy_Arith
    (snd (@run_orders float numpy_Arith (firstn n os)
            (@init float numpy_Arith candles balance f))).
Proof.
  intros Hprices.
  apply (@run_orders_preserves float numpy_Arith
           (@entry_price_invariant float numpy_Arith)).
  - intros o s Hin Hs. apply (@apply_order_entry_price float numpy_Arith);
      try assumption.
    + reflexivity.
    + intros x Hx. exact (float_ltb_not_eq Hx).
    + apply (Forall_prefix n) in Hprices.
      rewrite Forall_forall in Hprices. apply Hprices. exact Hin.
  - split; intros H; [discriminate H | reflexivity].
Qed.

End PropertiesAtInputs.
